(** * Fine-tuning notebooks: prompt formatting, preference filtering and
      the order of library calls

    The repository consists of two Jupyter notebooks:
    - the instruction-tuning notebook (supervised fine-tuning, "SFT"), and
    - [2-fine-tuning-PPO-DPO/3-Fine-Tuning-DPO.ipynb] (preference tuning).

    Their own logic is small: two [format_prompt] functions, one filter
    lambda, and a straight-line sequence of calls into external libraries
    (datasets, transformers, peft, trl).  This file embeds
    - the Python values the functions handle and the two operators they use
      on them, with the exceptions Python raises,
    - the functions themselves, as functions into an error monad,
    - the per-row behaviour of [Dataset.filter] and [Dataset.map],
    - each notebook as a program in a small trace monad whose only effect is
      "call this library entry point with these arguments". *)

From Stdlib Require Import ZArith QArith.
From stdpp Require Import base gmap strings list fin_maps.

Set Warnings "-register-all,-clear-no-such-hyp".
Local Open Scope string_scope.

(** ** Python values *)

Module Py.

(** A Python [float]: not-a-number, an infinity, or a finite value, kept by
    its exact rational value. *)
Inductive pyfloat :=
| FNaN
| FInf (negative : bool)
| FFinite (q : Q).

Inductive pyval :=
| VNone
| VBool (b : bool)
| VInt (z : Z)
| VFloat (f : pyfloat)
| VStr (s : string)
| VList (l : list pyval)
| VDict (d : gmap string pyval).

(** A dataset row, and the [example] argument of a mapped function, is a
    dictionary with string keys. *)
Abbreviation row := (gmap string pyval).

Inductive pyerr :=
| KeyError (key : string)
| TypeError.

Inductive result (A : Type) :=
| Ok (a : A)
| Raise (e : pyerr).
Arguments Ok {A} a.
Arguments Raise {A} e.

#[export] Instance result_ret : MRet result := fun A a => Ok a.
#[export] Instance result_bind : MBind result := fun A B f m =>
  match m with
  | Ok a => f a
  | Raise e => Raise e
  end.

(** The line-feed character written [\n] in the Python literals. *)
Definition nl : string := String (Ascii.ascii_of_nat 10) EmptyString.

(** [d[k]]: [KeyError] when the key is absent. *)
Definition getitem (d : row) (k : string) : result pyval :=
  match d !! k with
  | Some v => Ok v
  | None => Raise (KeyError k)
  end.

(** [a + b] as it occurs in the notebooks, where one operand is always a
    [str]: concatenation when the other one is a [str] too, [TypeError]
    for every other built-in value. *)
Definition str_add (a b : pyval) : result pyval :=
  match a, b with
  | VStr x, VStr y => Ok (VStr (x +:+ y))
  | _, _ => Raise TypeError
  end.

(** [v != s] against a string literal: never raises; values of another
    type are unequal to every string. *)
Definition ne_str (v : pyval) (s : string) : bool :=
  match v with
  | VStr x => negb (String.eqb x s)
  | _ => true
  end.

Definition float_ge_int (f : pyfloat) (n : Z) : bool :=
  match f with
  | FNaN => false
  | FInf negative => negb negative
  | FFinite q => Qle_bool (inject_Z n) q
  end.

(** [v >= n] against an integer literal: numbers compare by value ([bool]
    is a subclass of [int]); every other built-in type raises
    [TypeError]. *)
Definition ge_int (v : pyval) (n : Z) : result bool :=
  match v with
  | VBool b => Ok (n <=? Z.b2z b)%Z
  | VInt z => Ok (n <=? z)%Z
  | VFloat f => Ok (float_ge_int f n)
  | _ => Raise TypeError
  end.

(** Truth value testing, as used by [not] and by the row selection of
    [Dataset.filter]. *)
Definition truthy (v : pyval) : bool :=
  match v with
  | VNone => false
  | VBool b => b
  | VInt z => negb (z =? 0)%Z
  | VFloat FNaN => true
  | VFloat (FInf _) => true
  | VFloat (FFinite q) => negb (Qeq_bool q 0)
  | VStr s => negb (String.eqb s "")
  | VList l => match l with [] => false | _ => true end
  | VDict d => negb (bool_decide (d = ∅))
  end.

(** [s] ends with [suffix]. *)
Fixpoint endswith (s suffix : string) : bool :=
  String.eqb s suffix ||
  match s with
  | EmptyString => false
  | String _ s' => endswith s' suffix
  end.

End Py.
Import Py.

(** ** The preference-tuning notebook: functions *)

Module DPO.

(** [def format_prompt(example)], first code cell. *)
Definition format_prompt (example : row) : result row :=
  x ← getitem example "system";
  t ← str_add (VStr ("<|system|>" +:+ nl)) x;
  system ← str_add t (VStr ("</s>" +:+ nl));
  x ← getitem example "input";
  t ← str_add (VStr ("<|user|>" +:+ nl)) x;
  prompt ← str_add t (VStr (" </s>" +:+ nl +:+ "<|assistant|>" +:+ nl));
  x ← getitem example "chosen";
  chosen ← str_add x (VStr ("</s>" +:+ nl));
  x ← getitem example "rejected";
  rejected ← str_add x (VStr ("</s>" +:+ nl));
  p ← str_add system prompt;
  Ok ({[ "prompt" := p; "chosen" := chosen; "rejected" := rejected ]} : row).

(** The lambda passed to [dpo_dataset.filter]:
    [r["status"] != "tie" and r["chosen_score"] >= 8 and not r["in_gsm8k_train"]].
    [and] evaluates its right operand only when the left one is true. *)
Definition filter_lambda (r : row) : result pyval :=
  status ← getitem r "status";
  if ne_str status "tie" then
    score ← getitem r "chosen_score";
    high ← ge_int score 8;
    if (high : bool) then
      flag ← getitem r "in_gsm8k_train";
      Ok (VBool (negb (truthy flag)))
    else Ok (VBool false)
  else Ok (VBool false).

End DPO.

(** ** The instruction-tuning notebook: function *)

Module SFT.

(** The tokenizer is loaded at run time by
    [AutoTokenizer.from_pretrained("TinyLlama/TinyLlama-1.1B-Chat-v1.0")];
    its chat template is data of that external model repository.  The
    notebook uses one method of it. *)
Record Tokenizer := {
  (** [apply_chat_template(chat, tokenize=False)] *)
  apply_chat_template : pyval -> result pyval
}.

(** [def format_prompt(example)]; [template_tokenizer] is the global the
    function reads. *)
Definition format_prompt (template_tokenizer : Tokenizer) (example : row)
  : result row :=
  chat ← getitem example "messages";
  prompt ← apply_chat_template template_tokenizer chat;
  Ok ({[ "text" := prompt ]} : row).

End SFT.

(** ** Rows of a dataset under [filter] and [map]

    [filter] and [map] are methods of the datasets library; they are
    modelled by what the library documents about the rows of the result. *)

Module Dataset.

(** [Dataset.filter(function)]: the function is applied to the rows in
    order; the rows whose result is true are kept, in order.  An exception
    raised for a row aborts the whole call. *)
Fixpoint filter (function : row -> result pyval) (rows : list row)
  : result (list row) :=
  match rows with
  | [] => Ok []
  | r :: rest =>
      keep ← function r;
      rest' ← filter function rest;
      Ok (if truthy keep then r :: rest' else rest')
  end.

Definition remove_columns_from (remove_columns : list string) (r : row) : row :=
  foldr delete r remove_columns.

(** [Dataset.map(function, remove_columns=...)]: every row is replaced by
    the row without the removed columns, updated with the dictionary the
    function returned for the original row (the columns are removed before
    the update, so a returned column survives also under a removed
    name). *)
Fixpoint map (function : row -> result row) (remove_columns : list string)
    (rows : list row) : result (list row) :=
  match rows with
  | [] => Ok []
  | r :: rest =>
      out ← function r;
      rest' ← map function remove_columns rest;
      Ok ((out ∪ remove_columns_from remove_columns r) :: rest')
  end.

(** A table: every row has exactly the columns of the dataset. *)
Definition has_columns (column_names : list string) (rows : list row) : Prop :=
  Forall (fun r : row => dom r = list_to_set column_names) rows.

End Dataset.

(** ** The notebooks as sequences of library calls

    What a library call computes is not modelled: a call is recorded with
    its arguments, and its result is a handle on "the object this call
    returned". *)

Module Notebook.

(** What a notebook hands to a library: literals, imported names, functions
    defined in the notebook, the object returned by an earlier call
    (identified by the position of that call in the sequence), and
    attributes and items read from those. *)
Inductive value :=
| NoneV
| BoolV (b : bool)
| IntV (z : Z)
| FloatLit (text : string)
| StrV (s : string)
| StrList (l : list string)
| Global (name : string)
| Fn (name : string)
| Obj (id : nat)
| Attr (v : value) (name : string)
| Item (v : value) (key : value).

Inductive event :=
| Call (callee : value) (args : list value) (kwargs : list (string * value))
| SetAttr (target : value) (name : string) (v : value).

(** A notebook run appends to the sequence of events so far. *)
Definition nb (A : Type) : Type := list event -> A * list event.

#[export] Instance nb_ret : MRet nb := fun A a t => (a, t).
#[export] Instance nb_bind : MBind nb := fun A B f m t =>
  let '(a, t') := m t in f a t'.

Definition call (callee : value) (args : list value)
    (kwargs : list (string * value)) : nb value :=
  fun t => (Obj (List.length t), (t ++ [Call callee args kwargs])%list).

Definition setattr (target : value) (name : string) (v : value) : nb unit :=
  fun t => (tt, (t ++ [SetAttr target name v])%list).

Definition trace (notebook : nb unit) : list event := snd (notebook []).

Definition target_modules : value :=
  StrList ["k_proj"; "gate_proj"; "v_proj"; "up_proj"; "q_proj"; "o_proj";
           "down_proj"].

(** The instruction-tuning notebook, code cells top to bottom.  The cells
    that only install packages or import names have no counterpart. *)
Definition sft_notebook : nb unit :=
  (* Load a tokenizer and format function *)
  template_tokenizer ← call (Attr (Global "AutoTokenizer") "from_pretrained")
    [StrV "TinyLlama/TinyLlama-1.1B-Chat-v1.0"] [];
  let format_prompt := Fn "format_prompt" in
  (* Load and format the data *)
  dataset ← call (Global "load_dataset") [StrV "HuggingFaceH4/ultrachat_200k"]
    [("split", StrV "test_sft")];
  dataset ← call (Attr dataset "shuffle") [] [("seed", IntV 42)];
  indices ← call (Global "range") [IntV 3000] [];
  dataset ← call (Attr dataset "select") [indices] [];
  dataset ← call (Attr dataset "map") [format_prompt] [];
  call (Global "print") [Item (Item dataset (StrV "text")) (IntV 2576)] [];;
  (* Model Quantization *)
  let model_name := StrV "TinyLlama/TinyLlama-1.1B-intermediate-step-1431k-3T" in
  bnb_config ← call (Global "BitsAndBytesConfig") []
    [("load_in_4bit", BoolV true);
     ("bnb_4bit_quant_type", StrV "nf4");
     ("bnb_4bit_compute_dtype", StrV "float16");
     ("bnb_4bit_use_double_quant", BoolV true)];
  model ← call (Attr (Global "AutoModelForCausalLM") "from_pretrained")
    [model_name]
    [("device_map", StrV "auto"); ("quantization_config", bnb_config)];
  setattr (Attr model "config") "use_cache" (BoolV false);;
  setattr (Attr model "config") "pretraining_tp" (IntV 1);;
  tokenizer ← call (Attr (Global "AutoTokenizer") "from_pretrained")
    [model_name] [("trust_remote_code", BoolV true)];
  setattr tokenizer "pad_token" (StrV "<PAD>");;
  setattr tokenizer "padding_side" (StrV "left");;
  (* LoRA Configuration *)
  peft_config ← call (Global "LoraConfig") []
    [("lora_alpha", IntV 32);
     ("lora_dropout", FloatLit "0.1");
     ("r", IntV 64);
     ("bias", StrV "none");
     ("task_type", StrV "CAUSAL_LM");
     ("target_modules", target_modules)];
  model ← call (Global "prepare_model_for_kbit_training") [model] [];
  model ← call (Global "get_peft_model") [model; peft_config] [];
  (* Training Configuration *)
  let OUTPUT_DIR := StrV "./results" in
  training_arguments ← call (Global "TrainingArguments") []
    [("output_dir", OUTPUT_DIR);
     ("per_device_train_batch_size", IntV 2);
     ("gradient_accumulation_steps", IntV 4);
     ("optim", StrV "paged_adamw_32bit");
     ("learning_rate", FloatLit "2e-4");
     ("lr_scheduler_type", StrV "cosine");
     ("num_train_epochs", IntV 1);
     ("logging_steps", IntV 10);
     ("fp16", BoolV true);
     ("gradient_checkpointing", BoolV true)];
  (* Training *)
  trainer ← call (Global "SFTTrainer") []
    [("model", model);
     ("train_dataset", dataset);
     ("dataset_text_field", StrV "text");
     ("tokenizer", tokenizer);
     ("args", training_arguments);
     ("max_seq_length", IntV 512);
     ("peft_config", peft_config)];
  call (Attr trainer "train") [] [];;
  let QLORA_MODEL := StrV "TinyLlama-1.1B-qlora" in
  call (Attr (Attr trainer "model") "save_pretrained") [QLORA_MODEL] [];;
  (* Merge Weights *)
  model ← call (Attr (Global "AutoPeftModelForCausalLM") "from_pretrained")
    [StrV "TinyLlama-1.1B-qlora"]
    [("low_cpu_mem_usage", BoolV true); ("device_map", StrV "auto")];
  merged_model ← call (Attr model "merge_and_unload") [] [];
  (* Use our predefined prompt template *)
  let prompt := StrV ("<|user|>" +:+ nl +:+
    "Tell me something about Large Language Models.</s>" +:+ nl +:+
    "<|assistant|>" +:+ nl) in
  pipe ← call (Global "pipeline") []
    [("task", StrV "text-generation"); ("model", merged_model);
     ("tokenizer", tokenizer)];
  generated ← call pipe [prompt] [];
  call (Global "print") [Item (Item generated (IntV 0)) (StrV "generated_text")] [];;
  mret tt.

(** The preference-tuning notebook, code cells top to bottom.  The cell
    that holds nothing but a string literal (an alternative way of merging,
    kept as text) calls nothing and has no counterpart. *)
Definition dpo_notebook : nb unit :=
  let format_prompt := Fn "format_prompt" in
  (* Apply formatting to the dataset and select relatively short answers *)
  dpo_dataset ← call (Global "load_dataset")
    [StrV "argilla/distilabel-intel-orca-dpo-pairs"] [("split", StrV "train")];
  dpo_dataset ← call (Attr dpo_dataset "filter") [Fn "lambda"] [];
  dpo_dataset ← call (Attr dpo_dataset "map") [format_prompt]
    [("remove_columns", Attr dpo_dataset "column_names")];
  (* Model Quantization *)
  bnb_config ← call (Global "BitsAndBytesConfig") []
    [("load_in_4bit", BoolV true);
     ("bnb_4bit_quant_type", StrV "nf4");
     ("bnb_4bit_compute_dtype", StrV "float16");
     ("bnb_4bit_use_double_quant", BoolV true)];
  let model_name := StrV "TinyLlama/TinyLlama-1.1B-Chat-v1.0" in
  tokenizer ← call (Attr (Global "AutoTokenizer") "from_pretrained")
    [model_name] [("trust_remote_code", BoolV true)];
  setattr tokenizer "pad_token" (StrV "<PAD>");;
  setattr tokenizer "padding_side" (StrV "left");;
  model ← call (Attr (Global "AutoModelForCausalLM") "from_pretrained")
    [model_name]
    [("device_map", StrV "auto"); ("quantization_config", bnb_config);
     ("trust_remote_code", BoolV true)];
  setattr (Attr model "config") "use_cache" (BoolV false);;
  setattr (Attr model "config") "pretraining_tp" (IntV 1);;
  (* Prepare LoRA configuration *)
  peft_config ← call (Global "LoraConfig") []
    [("lora_alpha", IntV 32);
     ("lora_dropout", FloatLit "0.05");
     ("r", IntV 64);
     ("bias", StrV "none");
     ("task_type", StrV "CAUSAL_LM");
     ("target_modules", target_modules)];
  model ← call (Global "prepare_model_for_kbit_training") [model] [];
  model ← call (Global "get_peft_model") [model; peft_config] [];
  (* Training Configuration *)
  let output_dir := StrV "./dpo-tinyllama" in
  training_arguments ← call (Global "DPOConfig") []
    [("output_dir", output_dir);
     ("per_device_train_batch_size", IntV 2);
     ("gradient_accumulation_steps", IntV 4);
     ("optim", StrV "paged_adamw_32bit");
     ("learning_rate", FloatLit "1e-5");
     ("lr_scheduler_type", StrV "cosine");
     ("max_steps", IntV 200);
     ("logging_steps", IntV 10);
     ("fp16", BoolV true);
     ("gradient_checkpointing", BoolV true);
     ("warmup_ratio", FloatLit "0.1");
     ("beta", FloatLit "0.1");
     ("label_smoothing", FloatLit "0.0");
     ("loss_type", StrV "sigmoid")];
  (* Create DPO trainer *)
  dpo_trainer ← call (Global "DPOTrainer") [model]
    [("ref_model", NoneV);
     ("args", training_arguments);
     ("train_dataset", dpo_dataset);
     ("tokenizer", tokenizer);
     ("peft_config", peft_config);
     ("beta", FloatLit "0.1");
     ("max_prompt_length", IntV 512);
     ("max_length", IntV 512)];
  (* Start fine tuning *)
  call (Attr dpo_trainer "train") [] [];;
  (* Plot train and evaluation loss *)
  let pd := Global "pd" in
  let plt := Global "plt" in
  log ← call (Attr pd "DataFrame")
    [Attr (Attr dpo_trainer "state") "log_history"] [];
  mask ← call (Attr (Item log (StrV "loss")) "notna") [] [];
  let log_t := Item log mask in
  mask ← call (Attr (Item log (StrV "eval_loss")) "notna") [] [];
  let log_e := Item log mask in
  call (Attr plt "plot") [Item log_t (StrV "epoch"); Item log_t (StrV "loss")]
    [("label", StrV "Train")];;
  call (Attr plt "plot")
    [Item log_e (StrV "epoch"); Item log_e (StrV "eval_loss")]
    [("label", StrV "Eval")];;
  call (Attr plt "title") [StrV "Model Losses"] [];;
  call (Attr plt "legend") [] [];;
  call (Attr plt "show") [] [];;
  (* Save the adapter, merge the base model weights to LoRA adapters *)
  call (Attr dpo_trainer "save_model") [output_dir] [];;
  merged_model ← call (Attr model "merge_and_unload") [] [];
  (* Save model and tokenizer *)
  let merged_dir := StrV "./dpo-tinyllama-merged" in
  call (Attr merged_model "save_pretrained") [merged_dir] [];;
  call (Attr tokenizer "save_pretrained") [merged_dir] [];;
  (* Testing inference *)
  let model_dir := StrV "./dpo-tinyllama-merged" in
  finetuned_model ← call (Attr (Global "AutoModelForCausalLM") "from_pretrained")
    [model_dir] [("device_map", StrV "auto"); ("trust_remote_code", BoolV true)];
  finetuned_tokenizer ← call (Attr (Global "AutoTokenizer") "from_pretrained")
    [model_dir] [("trust_remote_code", BoolV true)];
  pipe ← call (Global "pipeline") [StrV "text-generation"]
    [("model", finetuned_model);
     ("tokenizer", finetuned_tokenizer);
     ("max_new_tokens", IntV 256);
     ("temperature", FloatLit "0.7");
     ("do_sample", BoolV true)];
  let prompt := StrV "Explain quantum computing in simple terms." in
  generated ← call pipe [prompt] [];
  call (Global "print") [Item (Item generated (IntV 0)) (StrV "generated_text")] [];;
  mret tt.

End Notebook.

Import Notebook.

(** ** Notions the properties are stated with *)

(** *** Records of the preference dataset *)

Module Preference.

(** [v] is a number that is at least [n]. *)
Definition at_least (v : pyval) (n : Z) : Prop :=
  match v with
  | VInt z => (n <= z)%Z
  | VFloat (FFinite q) => (inject_Z n <= q)%Q
  | VFloat (FInf false) => True
  | _ => False
  end.

Definition is_number (v : pyval) : Prop :=
  match v with
  | VInt _ | VFloat _ => True
  | _ => False
  end.


(** The condition in the words of the specification. *)
Definition wanted (r : row) : Prop :=
  r !! "status" <> Some (VStr "tie") /\
  (exists v, r !! "chosen_score" = Some v /\ at_least v 8) /\
  r !! "in_gsm8k_train" = Some (VBool false).

(** The columns hold values of their types wherever the filter reads
    them: the status is a string; unless the status is "tie", the score is
    a number; and when that number is at least 8, "in_gsm8k_train" is a
    boolean.  What the filter does not read may be null or missing, as the
    score of a tie. *)
Definition readable (r : row) : Prop :=
  exists s, r !! "status" = Some (VStr s) /\
    (s <> "tie" ->
     exists v, r !! "chosen_score" = Some v /\ is_number v /\
       (at_least v 8 -> exists b, r !! "in_gsm8k_train" = Some (VBool b))).

(** [kept] is [rows] without the rows that fail [P]: the same rows, in the
    same order, each as often as it occurs. *)
Inductive selects (P : row -> Prop) : list row -> list row -> Prop :=
| selects_nil : selects P [] []
| selects_keep r rows kept :
    P r -> selects P rows kept -> selects P (r :: rows) (r :: kept)
| selects_drop r rows kept :
    ~ P r -> selects P rows kept -> selects P (r :: rows) kept.

(** An example [format_prompt] can format: strings at the four keys it
    reads. *)
Definition formattable (example : row) : Prop :=
  exists system input chosen rejected,
    example !! "system" = Some (VStr system) /\
    example !! "input" = Some (VStr input) /\
    example !! "chosen" = Some (VStr chosen) /\
    example !! "rejected" = Some (VStr rejected).

End Preference.

(** *** Templates: fixed literals around fields of the example *)

Module Template.

Inductive piece :=
| Lit (s : string)
| Field (key : string).

(** The concatenation of the pieces, left to right; defined when every
    field the template names holds a string. *)
Fixpoint render (template : list piece) (example : row) : option string :=
  match template with
  | [] => Some ""
  | Lit s :: rest => tail ← render rest example; Some (s +:+ tail)
  | Field key :: rest =>
      match example !! key with
      | Some (VStr s) => tail ← render rest example; Some (s +:+ tail)
      | _ => None
      end
  end.

(** The string a formatting function returns under [key] is a fixed
    template rendered on the example. *)
Definition built_by_concatenation (format : row -> result row) (key : string)
  : Prop :=
  exists template, forall example out, format example = Ok out ->
    exists s, out !! key = Some (VStr s) /\ render template example = Some s.

Definition prompt_template : list piece :=
  [Lit ("<|system|>" +:+ nl); Field "system"; Lit ("</s>" +:+ nl);
   Lit ("<|user|>" +:+ nl); Field "input";
   Lit (" </s>" +:+ nl +:+ "<|assistant|>" +:+ nl)].

Definition chosen_template : list piece := [Field "chosen"; Lit ("</s>" +:+ nl)].

Definition rejected_template : list piece :=
  [Field "rejected"; Lit ("</s>" +:+ nl)].

(** A chat template in the style of the one the instruction-tuning notebook
    downloads: every message of the conversation becomes a role tag, the
    content and an end-of-sequence marker. *)
Definition render_message (message : pyval) : result string :=
  match message with
  | VDict d =>
      role ← getitem d "role";
      content ← getitem d "content";
      match role, content with
      | VStr r, VStr c => Ok ("<|" +:+ r +:+ "|>" +:+ nl +:+ c +:+ "</s>" +:+ nl)
      | _, _ => Raise TypeError
      end
  | _ => Raise TypeError
  end.

Fixpoint render_chat (messages : list pyval) : result string :=
  match messages with
  | [] => Ok ""
  | m :: rest =>
      head ← render_message m;
      tail ← render_chat rest;
      Ok (head +:+ tail)
  end.

Definition chat_tokenizer : SFT.Tokenizer :=
  {| SFT.apply_chat_template chat :=
       match chat with
       | VList messages => text ← render_chat messages; Ok (VStr text)
       | _ => Raise TypeError
       end |}.

Definition message (role content : string) : pyval :=
  VDict {[ "role" := VStr role; "content" := VStr content ]}.

Definition short_chat : row :=
  {[ "messages" := VList [message "user" "Hi"] ]}.

Definition long_chat : row :=
  {[ "messages" := VList [message "user" "Hi"; message "assistant" "Hello"] ]}.

End Template.

(** *** Reading a sequence of events *)

Module Trace.

(** The steps the specification lists for a notebook. *)
Inductive stage :=
| LoadDataset
| MapPrompts
| Configure
| Train
| Merge
| Generate.

Definition rank (s : stage) : nat :=
  match s with
  | LoadDataset => 0
  | MapPrompts => 1
  | Configure => 2
  | Train => 3
  | Merge => 4
  | Generate => 5
  end.

Definition is_config_class (name : string) : bool :=
  existsb (String.eqb name)
    ["BitsAndBytesConfig"; "LoraConfig"; "TrainingArguments"; "DPOConfig"].

Definition is_pipeline_call (ev : event) : bool :=
  match ev with
  | Call (Global name) _ _ => String.eqb name "pipeline"
  | _ => false
  end.

(** The stage an event belongs to, if any.  A call of an object is a
    generation when the object is one that [pipeline] returned. *)
Definition stage_of (t : list event) (ev : event) : option stage :=
  match ev with
  | Call (Global name) _ _ =>
      if String.eqb name "load_dataset" then Some LoadDataset
      else if is_config_class name then Some Configure
      else if String.eqb name "pipeline" then Some Generate
      else None
  | Call (Attr _ name) args _ =>
      if String.eqb name "map" then
        match args with
        | Fn f :: _ => if String.eqb f "format_prompt" then Some MapPrompts else None
        | _ => None
        end
      else if String.eqb name "train" then Some Train
      else if String.eqb name "merge_and_unload" then Some Merge
      else None
  | Call (Obj producer) _ _ =>
      match t !! producer with
      | Some ev' => if is_pipeline_call ev' then Some Generate else None
      | None => None
      end
  | _ => None
  end.

Definition stages (t : list event) : list (option stage) :=
  List.map (stage_of t) t.

(** Events of an earlier stage come before events of a later stage, and
    every stage occurs. *)
Definition in_order (l : list (option stage)) : Prop :=
  forall i j a b, l !! i = Some (Some a) -> l !! j = Some (Some b) ->
    (rank a < rank b)%nat -> (i < j)%nat.

Definition complete (l : list (option stage)) : Prop :=
  forall s, exists i, l !! i = Some (Some s).

Definition not_before (a : stage) (o : option stage) : bool :=
  match o with
  | Some b => (rank a <=? rank b)%nat
  | None => true
  end.

Fixpoint in_orderb (l : list (option stage)) : bool :=
  match l with
  | [] => true
  | None :: rest => in_orderb rest
  | Some a :: rest => forallb (not_before a) rest && in_orderb rest
  end.

(** Does a value refer to the object returned by call [id]? *)
Fixpoint mentions (id : nat) (v : value) : bool :=
  match v with
  | Obj k => (k =? id)%nat
  | Attr v' _ => mentions id v'
  | Item v' key => mentions id v' || mentions id key
  | _ => false
  end.

Definition event_mentions (id : nat) (ev : event) : bool :=
  match ev with
  | Call callee args kwargs =>
      mentions id callee || existsb (mentions id) args ||
      existsb (fun kv => mentions id (snd kv)) kwargs
  | SetAttr target _ v => mentions id target || mentions id v
  end.

(** A keyword argument of a call. *)
Fixpoint kwarg (kwargs : list (string * value)) (name : string) : option value :=
  match kwargs with
  | [] => None
  | (k, v) :: rest => if String.eqb k name then Some v else kwarg rest name
  end.

(** Is the event a call of method [name] on some object? *)
Definition is_method_call (name : string) (ev : event) : bool :=
  match ev with
  | Call (Attr _ m) _ _ => String.eqb m name
  | _ => false
  end.

(** [P i ev] for every event [ev] at position [i], counting from [start]. *)
Fixpoint all_from (start : nat) (P : nat -> event -> bool) (t : list event) : bool :=
  match t with
  | [] => true
  | ev :: rest => P start ev && all_from (S start) P rest
  end.

Definition all_stages : list stage :=
  [LoadDataset; MapPrompts; Configure; Train; Merge; Generate].

Definition has_stage (l : list (option stage)) (s : stage) : bool :=
  existsb (fun o => match o with
                    | Some s' => (rank s =? rank s')%nat
                    | None => false
                    end) l.

Definition completeb (l : list (option stage)) : bool :=
  forallb (has_stage l) all_stages.

(** The order of the specification: load and map the dataset, construct
    the configuration objects, train, merge, generate; no generation
    before the merge. *)
Definition follows_the_steps (t : list event) : Prop :=
  in_order (stages t) /\
  complete (stages t) /\
  forall i, stages t !! i = Some (Some Generate) ->
    exists j, (j < i)%nat /\ stages t !! j = Some (Some Merge).

(** [P] holds of the event at position [i] and of no other event. *)
Definition only_at (t : list event) (P : event -> bool) (i : nat) : Prop :=
  forall j ev, t !! j = Some ev -> P ev = true -> j = i.

Definition only_atb (t : list event) (P : event -> bool) (i : nat) : bool :=
  all_from 0 (fun j ev => implb (P ev) (j =? i)%nat) t.

Definition is_global_call (name : string) (ev : event) : bool :=
  match ev with
  | Call (Global g) _ _ => String.eqb g name
  | _ => false
  end.

Definition has_kwarg (name : string) (ev : event) : bool :=
  match ev with
  | Call _ _ kwargs => match kwarg kwargs name with Some _ => true | None => false end
  | SetAttr _ _ _ => false
  end.

(** The four settings of the 4-bit quantization. *)
Definition bnb_kwargs : list (string * value) :=
  [("load_in_4bit", BoolV true);
   ("bnb_4bit_quant_type", StrV "nf4");
   ("bnb_4bit_compute_dtype", StrV "float16");
   ("bnb_4bit_use_double_quant", BoolV true)].

(** Quantization enters a notebook through one configuration object: it is
    constructed once, with the four settings; it is the
    [quantization_config] argument of the call that loads the model; no
    other event touches the object, constructs such an object or passes a
    [quantization_config]. *)
Definition quantized_by_config (t : list event) : Prop :=
  exists config load model_name kwargs,
    t !! config = Some (Call (Global "BitsAndBytesConfig") [] bnb_kwargs) /\
    t !! load = Some (Call (Attr (Global "AutoModelForCausalLM") "from_pretrained")
                        [model_name] kwargs) /\
    kwarg kwargs "quantization_config" = Some (Obj config) /\
    (config < load)%nat /\
    only_at t (event_mentions config) load /\
    only_at t (is_global_call "BitsAndBytesConfig") config /\
    only_at t (has_kwarg "quantization_config") load.

Definition one_of (names : list string) (name : string) : bool :=
  existsb (String.eqb name) names.

(** Everything the notebooks call by name: functions and classes of the
    libraries, and the built-ins [range] and [print]. *)
Definition entry_points : list string :=
  ["load_dataset"; "range"; "print"; "BitsAndBytesConfig"; "LoraConfig";
   "TrainingArguments"; "DPOConfig"; "prepare_model_for_kbit_training";
   "get_peft_model"; "SFTTrainer"; "DPOTrainer"; "pipeline"].

Definition loader_classes : list string :=
  ["AutoTokenizer"; "AutoModelForCausalLM"; "AutoPeftModelForCausalLM"].

(** The methods the notebooks call on objects the libraries returned. *)
Definition object_methods : list string :=
  ["filter"; "map"; "shuffle"; "select"; "train"; "save_model";
   "save_pretrained"; "merge_and_unload"; "notna"].

Definition plot_functions : list string := ["plot"; "title"; "legend"; "show"].

(** The attributes the notebooks assign. *)
Definition settings : list string :=
  ["use_cache"; "pretraining_tp"; "pad_token"; "padding_side"].

Definition is_literal (v : value) : bool :=
  match v with
  | NoneV | BoolV _ | IntV _ | FloatLit _ | StrV _ | StrList _ => true
  | _ => false
  end.

(** A step that computes nothing itself: a call of one of the entry
    points above, of [from_pretrained] on a loader class, of [pd.DataFrame]
    or a plot function, of one of the object methods, or of a pipeline
    that [pipeline] returned; or the assignment of a literal to one of the
    settings.  No tensor operation, no arithmetic and no assignment to a
    weight is among them. *)
Definition library_step (t : list event) (ev : event) : bool :=
  match ev with
  | Call (Global name) _ _ => one_of entry_points name
  | Call (Attr (Global m) name) _ _ =>
      one_of loader_classes m && String.eqb name "from_pretrained" ||
      String.eqb m "pd" && String.eqb name "DataFrame" ||
      String.eqb m "plt" && one_of plot_functions name
  | Call (Attr _ name) _ _ => one_of object_methods name
  | Call (Obj producer) _ _ =>
      match t !! producer with
      | Some ev' => is_pipeline_call ev'
      | None => false
      end
  | Call _ _ _ => false
  | SetAttr _ name v => one_of settings name && is_literal v
  end.

(** Every step of the notebook is such a step. *)
Definition library_steps_only (t : list event) : Prop :=
  Forall (fun ev => library_step t ev = true) t.

(** Quantization is left to the library: the notebook states it in one
    configuration object, and no step of the notebook computes anything
    itself. *)
Definition quantization_delegated (t : list event) : Prop :=
  quantized_by_config t /\ library_steps_only t.

(** The merged model, in the words of the specification: the object one
    [merge_and_unload()] returned is saved afterwards and is the model of
    the generation pipeline. *)
Definition merged_model_saved_and_used (t : list event) : Prop :=
  exists merge receiver,
    t !! merge = Some (Call (Attr receiver "merge_and_unload") [] []) /\
    (exists i args kwargs, (merge < i)%nat /\
       t !! i = Some (Call (Attr (Obj merge) "save_pretrained") args kwargs)) /\
    (exists i args kwargs, (merge < i)%nat /\
       t !! i = Some (Call (Global "pipeline") args kwargs) /\
       kwarg kwargs "model" = Some (Obj merge)).

(** Is the event a [save_pretrained] or [save_model] call on the object
    returned by call [id]? *)
Definition saves_object (id : nat) (ev : event) : bool :=
  match ev with
  | Call (Attr (Obj k) name) _ _ =>
      (k =? id)%nat &&
      (String.eqb name "save_pretrained" || String.eqb name "save_model")
  | _ => false
  end.

(** [P] holds of no event. *)
Definition never (t : list event) (P : event -> bool) : Prop :=
  forall j ev, t !! j = Some ev -> P ev = false.

Definition neverb (t : list event) (P : event -> bool) : bool :=
  forallb (fun ev => negb (P ev)) t.

(** What the instruction-tuning notebook does with the merged model: after
    training, the adapter the trainer saved is loaded again, merged by the
    one [merge_and_unload()] call, and the object that call returned is the
    model of the one pipeline; nothing else uses it, so it is never
    saved. *)
Definition merged_then_used (t : list event) : Prop :=
  exists trainer train saved adapter merge pipe kwargs,
    t !! train = Some (Call (Attr (Obj trainer) "train") [] []) /\
    t !! saved = Some (Call (Attr (Attr (Obj trainer) "model") "save_pretrained")
                         [StrV "TinyLlama-1.1B-qlora"] []) /\
    t !! adapter =
      Some (Call (Attr (Global "AutoPeftModelForCausalLM") "from_pretrained")
              [StrV "TinyLlama-1.1B-qlora"]
              [("low_cpu_mem_usage", BoolV true); ("device_map", StrV "auto")]) /\
    t !! merge = Some (Call (Attr (Obj adapter) "merge_and_unload") [] []) /\
    t !! pipe = Some (Call (Global "pipeline") [] kwargs) /\
    kwarg kwargs "model" = Some (Obj merge) /\
    (train < saved < adapter)%nat /\ (adapter < merge < pipe)%nat /\
    only_at t (is_method_call "merge_and_unload") merge /\
    only_at t (is_global_call "pipeline") pipe /\
    only_at t (event_mentions merge) pipe.

(** What the preference-tuning notebook does with the merged model: after
    training, the one [merge_and_unload()] call is made on the adapter
    model the trainer trained; the object it returned is saved to a
    directory and used for nothing else; the model of the one pipeline is
    loaded from that directory. *)
Definition merged_saved_reloaded (t : list event) : Prop :=
  exists base config peft trainer trainer_kwargs train merge save reload
      reload_kwargs pipe kwargs,
    t !! peft = Some (Call (Global "get_peft_model") [base; config] []) /\
    t !! trainer = Some (Call (Global "DPOTrainer") [Obj peft] trainer_kwargs) /\
    t !! train = Some (Call (Attr (Obj trainer) "train") [] []) /\
    t !! merge = Some (Call (Attr (Obj peft) "merge_and_unload") [] []) /\
    t !! save = Some (Call (Attr (Obj merge) "save_pretrained")
                        [StrV "./dpo-tinyllama-merged"] []) /\
    t !! reload =
      Some (Call (Attr (Global "AutoModelForCausalLM") "from_pretrained")
              [StrV "./dpo-tinyllama-merged"] reload_kwargs) /\
    t !! pipe = Some (Call (Global "pipeline") [StrV "text-generation"] kwargs) /\
    kwarg kwargs "model" = Some (Obj reload) /\
    (train < merge < save)%nat /\ (save < reload < pipe)%nat /\
    only_at t (is_method_call "merge_and_unload") merge /\
    only_at t (is_global_call "pipeline") pipe /\
    only_at t (event_mentions merge) save.

(** The preference-tuning notebook hands to the one [DPOTrainer] it
    constructs no reference model and, as training data, the dataset that
    [map(format_prompt, remove_columns=column_names)] made of the filtered
    dataset; [train()] is called on that trainer. *)
Definition trained_on_formatted_pairs (t : list event) : Prop :=
  exists loaded filtered mapped trainer train model args tokenizer peft_config,
    t !! loaded = Some (Call (Global "load_dataset")
                          [StrV "argilla/distilabel-intel-orca-dpo-pairs"]
                          [("split", StrV "train")]) /\
    t !! filtered = Some (Call (Attr (Obj loaded) "filter") [Fn "lambda"] []) /\
    t !! mapped = Some (Call (Attr (Obj filtered) "map") [Fn "format_prompt"]
                          [("remove_columns", Attr (Obj filtered) "column_names")]) /\
    t !! trainer = Some (Call (Global "DPOTrainer") [model]
                           [("ref_model", NoneV);
                            ("args", args);
                            ("train_dataset", Obj mapped);
                            ("tokenizer", tokenizer);
                            ("peft_config", peft_config);
                            ("beta", FloatLit "0.1");
                            ("max_prompt_length", IntV 512);
                            ("max_length", IntV 512)]) /\
    t !! train = Some (Call (Attr (Obj trainer) "train") [] []) /\
    only_at t (is_global_call "DPOTrainer") trainer /\
    only_at t (is_method_call "train") train /\
    never t (has_kwarg "reward_model").

End Trace.

(** ** Sample data *)

Module Sample.

(** A row with the columns of the preference dataset that the notebook
    reads. *)
Definition pair_row (status : string) (score : pyval) (in_gsm8k_train : bool)
  : row :=
  {[ "system" := VStr "You are an AI assistant.";
     "input" := VStr "What is 2 + 2?";
     "chosen" := VStr "4";
     "rejected" := VStr "5";
     "status" := VStr status;
     "chosen_score" := score;
     "in_gsm8k_train" := VBool in_gsm8k_train ]}.

Definition column_names : list string :=
  ["system"; "input"; "chosen"; "rejected"; "status"; "chosen_score";
   "in_gsm8k_train"].

Definition good_row : row := pair_row "changed" (VFloat (FFinite (9 # 1))) false.
Definition tie_row : row := pair_row "tie" (VFloat (FFinite (9 # 1))) false.
Definition low_row : row := pair_row "unchanged" (VFloat (FFinite (15 # 2))) false.
Definition gsm8k_row : row := pair_row "unchanged" (VInt 10) true.

Definition rows : list row := [good_row; tie_row; low_row; gsm8k_row].

(** An example without the "input" column whose "system" value is not a
    string. *)
Definition untyped_example : row :=
  {[ "system" := VInt 5; "chosen" := VStr "4"; "rejected" := VStr "5" ]}.

End Sample.

(** ** Further notions: edge cases and the wiring of the calls *)

Module Edge.

(** The values [>=] compares with an integer. *)
Definition comparable (v : pyval) : Prop :=
  match v with
  | VBool _ | VInt _ | VFloat _ => True
  | _ => False
  end.

Definition is_str (v : pyval) : Prop :=
  match v with
  | VStr _ => True
  | _ => False
  end.

(** The keys [format_prompt] reads, in the order it reads them. *)
Definition prompt_keys : list string := ["system"; "input"; "chosen"; "rejected"].

(** What stands between the system text and the user text in a prompt. *)
Definition turn_separator : string := "</s>" +:+ nl +:+ "<|user|>" +:+ nl.

Definition pair_of (system input : string) : row :=
  {[ "system" := VStr system; "input" := VStr input;
     "chosen" := VStr "yes"; "rejected" := VStr "no" ]}.

Definition split_early : row :=
  pair_of "Be brief." ("Hello" +:+ turn_separator +:+ "Bye").

Definition split_late : row :=
  pair_of ("Be brief." +:+ turn_separator +:+ "Hello") "Bye".

(** A record of the dataset that is a tie and has no score. *)
Definition unscored_tie : row :=
  {[ "status" := VStr "tie"; "chosen_score" := VNone;
     "in_gsm8k_train" := VBool false ]}.

(** The sample records and a tie without a score. *)
Definition rows_with_tie : list row :=
  [Sample.good_row; unscored_tie; Sample.low_row; Sample.gsm8k_row;
   Sample.good_row].

(** A conversation row of the instruction-tuning dataset. *)
Definition chat_row : row :=
  {[ "prompt" := VStr "Hi";
     "messages" := VList [Template.message "user" "Hi";
                          Template.message "assistant" "Hello"] ]}.

End Edge.

Module Wiring.

Import Trace.

(** The model a trainer is constructed with: its first positional
    argument, or else its [model] keyword. *)
Definition model_argument (ev : event) : option value :=
  match ev with
  | Call _ (m :: _) _ => Some m
  | Call _ [] kwargs => kwarg kwargs "model"
  | SetAttr _ _ _ => None
  end.

Definition kwarg_of (ev : event) (name : string) : option value :=
  match ev with
  | Call _ _ kwargs => kwarg kwargs name
  | SetAttr _ _ _ => None
  end.

(** Is the event an assignment to attribute [name] of the object returned
    by call [id]? *)
Definition sets_attribute (id : nat) (name : string) (ev : event) : bool :=
  match ev with
  | SetAttr (Obj k) n _ => (k =? id)%nat && String.eqb n name
  | _ => false
  end.

(** Is the event an assignment to [config.name] of that object? *)
Definition sets_config (id : nat) (name : string) (ev : event) : bool :=
  match ev with
  | SetAttr (Attr (Obj k) c) n _ =>
      (k =? id)%nat && String.eqb c "config" && String.eqb n name
  | _ => false
  end.

(** The model a notebook trains: the base model loaded with the 4-bit
    [BitsAndBytesConfig] object as its quantization configuration, then
    prepared for k-bit training, then
    wrapped by [get_peft_model] with the one LoRA configuration (rank 64,
    alpha 32, the seven projection layers), which the trainer receives as
    well. *)
Definition trains_qlora_model (t : list event) (trainer_class : string) : Prop :=
  exists load load_args load_kwargs quant prepare lora lora_kwargs peft
      trainer ev,
    t !! load = Some (Call (Attr (Global "AutoModelForCausalLM") "from_pretrained")
                        load_args load_kwargs) /\
    t !! quant = Some (Call (Global "BitsAndBytesConfig") [] bnb_kwargs) /\
    kwarg load_kwargs "quantization_config" = Some (Obj quant) /\
    (quant < load)%nat /\
    t !! prepare = Some (Call (Global "prepare_model_for_kbit_training")
                           [Obj load] []) /\
    t !! lora = Some (Call (Global "LoraConfig") [] lora_kwargs) /\
    kwarg lora_kwargs "r" = Some (IntV 64) /\
    kwarg lora_kwargs "lora_alpha" = Some (IntV 32) /\
    kwarg lora_kwargs "target_modules" = Some target_modules /\
    t !! peft = Some (Call (Global "get_peft_model") [Obj prepare; Obj lora] []) /\
    t !! trainer = Some ev /\
    is_global_call trainer_class ev = true /\
    model_argument ev = Some (Obj peft) /\
    kwarg_of ev "peft_config" = Some (Obj lora) /\
    (load < prepare < peft)%nat /\ (lora < peft < trainer)%nat /\
    only_at t (is_global_call "LoraConfig") lora /\
    only_at t (is_global_call "get_peft_model") peft /\
    only_at t (is_global_call trainer_class) trainer.

(** The settings a notebook assigns before it uses the objects: the
    tokenizer, loaded under the same name as the base model, gets the pad
    token "<PAD>" and left padding before the trainer receives it; the base
    model's configuration gets [use_cache = False] and
    [pretraining_tp = 1] before the model is prepared; each attribute is
    assigned once. *)
Definition settings_before_use (t : list event) (trainer_class : string) : Prop :=
  exists name tokenizer tokenizer_kwargs load load_kwargs prepare trainer ev
      pad side cache tp,
    t !! tokenizer = Some (Call (Attr (Global "AutoTokenizer") "from_pretrained")
                             [name] tokenizer_kwargs) /\
    t !! load = Some (Call (Attr (Global "AutoModelForCausalLM") "from_pretrained")
                        [name] load_kwargs) /\
    t !! prepare = Some (Call (Global "prepare_model_for_kbit_training")
                           [Obj load] []) /\
    t !! trainer = Some ev /\
    is_global_call trainer_class ev = true /\
    kwarg_of ev "tokenizer" = Some (Obj tokenizer) /\
    t !! pad = Some (SetAttr (Obj tokenizer) "pad_token" (StrV "<PAD>")) /\
    t !! side = Some (SetAttr (Obj tokenizer) "padding_side" (StrV "left")) /\
    t !! cache = Some (SetAttr (Attr (Obj load) "config") "use_cache" (BoolV false)) /\
    t !! tp = Some (SetAttr (Attr (Obj load) "config") "pretraining_tp" (IntV 1)) /\
    (tokenizer < pad < trainer)%nat /\ (tokenizer < side < trainer)%nat /\
    (load < cache < prepare)%nat /\ (load < tp < prepare)%nat /\
    only_at t (sets_attribute tokenizer "pad_token") pad /\
    only_at t (sets_attribute tokenizer "padding_side") side /\
    only_at t (sets_config load "use_cache") cache /\
    only_at t (sets_config load "pretraining_tp") tp.

(** The instruction-tuning notebook trains on the formatted text: the one
    [SFTTrainer] gets, as training data, the dataset that
    [map(format_prompt)] made of 3000 shuffled rows of the loaded split,
    and reads its "text" column. *)
Definition trains_on_text (t : list event) : Prop :=
  exists loaded shuffled indices selected mapped trainer train kwargs,
    t !! loaded = Some (Call (Global "load_dataset")
                          [StrV "HuggingFaceH4/ultrachat_200k"]
                          [("split", StrV "test_sft")]) /\
    t !! shuffled = Some (Call (Attr (Obj loaded) "shuffle") []
                            [("seed", IntV 42)]) /\
    t !! indices = Some (Call (Global "range") [IntV 3000] []) /\
    t !! selected = Some (Call (Attr (Obj shuffled) "select") [Obj indices] []) /\
    t !! mapped = Some (Call (Attr (Obj selected) "map") [Fn "format_prompt"] []) /\
    t !! trainer = Some (Call (Global "SFTTrainer") [] kwargs) /\
    kwarg kwargs "train_dataset" = Some (Obj mapped) /\
    kwarg kwargs "dataset_text_field" = Some (StrV "text") /\
    kwarg kwargs "max_seq_length" = Some (IntV 512) /\
    t !! train = Some (Call (Attr (Obj trainer) "train") [] []) /\
    only_at t (is_global_call "SFTTrainer") trainer /\
    only_at t (is_method_call "train") train /\
    only_at t (is_method_call "map") mapped.

(** The tokenizer of the generation pipeline in the instruction-tuning
    notebook is the object the trainer was given. *)
Definition generates_with_training_tokenizer (t : list event) : Prop :=
  exists tokenizer trainer trainer_kwargs pipe pipe_kwargs,
    t !! trainer = Some (Call (Global "SFTTrainer") [] trainer_kwargs) /\
    kwarg trainer_kwargs "tokenizer" = Some (Obj tokenizer) /\
    t !! pipe = Some (Call (Global "pipeline") [] pipe_kwargs) /\
    kwarg pipe_kwargs "tokenizer" = Some (Obj tokenizer) /\
    (tokenizer < trainer < pipe)%nat.

(** The tokenizer of the generation pipeline in the preference-tuning
    notebook is loaded from the directory to which the trainer's tokenizer
    and the merged model (the object the one [merge_and_unload()] call on
    the trained model returned) were saved. *)
Definition generates_with_saved_tokenizer (t : list event) : Prop :=
  exists tokenizer trainer model trainer_kwargs merged save_model
      save_tokenizer reload reload_kwargs pipe pipe_args pipe_kwargs dir,
    t !! trainer = Some (Call (Global "DPOTrainer") [model] trainer_kwargs) /\
    kwarg trainer_kwargs "tokenizer" = Some (Obj tokenizer) /\
    t !! merged = Some (Call (Attr model "merge_and_unload") [] []) /\
    only_at t (is_method_call "merge_and_unload") merged /\
    (trainer < merged < save_model)%nat /\
    t !! save_model = Some (Call (Attr (Obj merged) "save_pretrained") [dir] []) /\
    t !! save_tokenizer =
      Some (Call (Attr (Obj tokenizer) "save_pretrained") [dir] []) /\
    t !! reload = Some (Call (Attr (Global "AutoTokenizer") "from_pretrained")
                          [dir] reload_kwargs) /\
    t !! pipe = Some (Call (Global "pipeline") pipe_args pipe_kwargs) /\
    kwarg pipe_kwargs "tokenizer" = Some (Obj reload) /\
    (trainer < save_model < save_tokenizer)%nat /\
    (save_tokenizer < reload < pipe)%nat /\
    only_at t (event_mentions reload) pipe.

End Wiring.

(** ** Properties of the functions *)

Section Strings.

Lemma append_cons (ch : Ascii.ascii) (a b : string) :
  String ch a +:+ b = String ch (a +:+ b).
Proof. reflexivity. Qed.

Lemma append_assoc (a b c : string) : (a +:+ b) +:+ c = a +:+ (b +:+ c).
Proof.
  induction a as [|ch a IH]; [reflexivity |].
  now rewrite !append_cons, IH.
Qed.

Lemma eqb_refl (s : string) : String.eqb s s = true.
Proof. now apply String.eqb_eq. Qed.

Lemma endswith_unfold (s suffix : string) :
  endswith s suffix =
  String.eqb s suffix ||
  match s with
  | EmptyString => false
  | String _ s' => endswith s' suffix
  end.
Proof. destruct s; reflexivity. Qed.

Lemma endswith_append (p suffix : string) : endswith (p +:+ suffix) suffix = true.
Proof.
  induction p as [|ch p IH].
  - change ("" +:+ suffix) with suffix.
    rewrite endswith_unfold, eqb_refl. reflexivity.
  - rewrite append_cons, endswith_unfold, IH. apply orb_true_r.
Qed.

Lemma endswith_inv (s suffix : string) :
  endswith s suffix = true -> exists p, s = p +:+ suffix.
Proof.
  induction s as [|ch s IH]; rewrite endswith_unfold; intros H;
    apply orb_true_iff in H as [H | H].
  - apply String.eqb_eq in H. exists "". now subst.
  - discriminate.
  - apply String.eqb_eq in H. exists "". now rewrite H.
  - destruct (IH H) as [p ->]. now exists (String ch p).
Qed.

End Strings.

Section FormatPrompt.

Lemma getitem_Some (d : row) (k : string) (v : pyval) :
  d !! k = Some v -> getitem d k = Ok v.
Proof. unfold getitem. now intros ->. Qed.

Lemma getitem_None (d : row) (k : string) :
  d !! k = None -> getitem d k = Raise (KeyError k).
Proof. unfold getitem. now intros ->. Qed.

(** Every successful run read four strings and returned the three formatted
    ones. *)
Lemma format_prompt_Ok_inv (example out : row) :
  DPO.format_prompt example = Ok out ->
  exists system input chosen rejected,
    example !! "system" = Some (VStr system) /\
    example !! "input" = Some (VStr input) /\
    example !! "chosen" = Some (VStr chosen) /\
    example !! "rejected" = Some (VStr rejected) /\
    out = {[ "prompt" := VStr ("<|system|>" +:+ nl +:+ system +:+ "</s>" +:+ nl +:+
                               "<|user|>" +:+ nl +:+ input +:+
                               " </s>" +:+ nl +:+ "<|assistant|>" +:+ nl);
             "chosen" := VStr (chosen +:+ "</s>" +:+ nl);
             "rejected" := VStr (rejected +:+ "</s>" +:+ nl) ]}.
Proof.
  unfold DPO.format_prompt, getitem.
  destruct (example !! "system") as [[| | | |system| |]|]; try discriminate.
  destruct (example !! "input") as [[| | | |input| |]|]; try discriminate.
  destruct (example !! "chosen") as [[| | | |chosen| |]|]; try discriminate.
  destruct (example !! "rejected") as [[| | | |rejected| |]|]; try discriminate.
  cbn. intros [= <-]. exists system, input, chosen, rejected.
  repeat split; try reflexivity.
  now rewrite !append_assoc.
Qed.

Lemma format_prompt_formattable (example : row) :
  Preference.formattable example ->
  exists out, DPO.format_prompt example = Ok out.
Proof.
  intros (system & input & chosen & rejected & Hs & Hi & Hc & Hr).
  unfold DPO.format_prompt, getitem. rewrite Hs, Hi, Hc, Hr.
  cbn [mbind result_bind str_add]. eauto.
Qed.

(** C2.  For every example whose "system", "input", "chosen" and "rejected"
    fields are strings, [format_prompt] returns exactly the dictionary
    with "prompt" = "<|system|>\n" + system + "</s>\n" + "<|user|>\n" +
    input + " </s>\n<|assistant|>\n", "chosen" = chosen + "</s>\n" and
    "rejected" = rejected + "</s>\n": one space before "</s>" in the user
    turn, none in the two completions. *)
Theorem format_prompt_returns (example : row)
    (system input chosen rejected : string) :
  example !! "system" = Some (VStr system) ->
  example !! "input" = Some (VStr input) ->
  example !! "chosen" = Some (VStr chosen) ->
  example !! "rejected" = Some (VStr rejected) ->
  DPO.format_prompt example =
    Ok {[ "prompt" := VStr ("<|system|>" +:+ nl +:+ system +:+ "</s>" +:+ nl +:+
                            "<|user|>" +:+ nl +:+ input +:+
                            " </s>" +:+ nl +:+ "<|assistant|>" +:+ nl);
          "chosen" := VStr (chosen +:+ "</s>" +:+ nl);
          "rejected" := VStr (rejected +:+ "</s>" +:+ nl) ]}.
Proof.
  intros Hsystem Hinput Hchosen Hrejected.
  unfold DPO.format_prompt.
  rewrite (getitem_Some _ _ _ Hsystem), (getitem_Some _ _ _ Hinput),
    (getitem_Some _ _ _ Hchosen), (getitem_Some _ _ _ Hrejected).
  cbn. now rewrite !append_assoc.
Qed.

Lemma format_prompt_returns_witness :
  DPO.format_prompt Sample.good_row =
    Ok {[ "prompt" := VStr ("<|system|>" +:+ nl +:+ "You are an AI assistant." +:+
                            "</s>" +:+ nl +:+ "<|user|>" +:+ nl +:+
                            "What is 2 + 2?" +:+
                            " </s>" +:+ nl +:+ "<|assistant|>" +:+ nl);
          "chosen" := VStr ("4" +:+ "</s>" +:+ nl);
          "rejected" := VStr ("5" +:+ "</s>" +:+ nl) ]}.
Proof.
  apply (format_prompt_returns Sample.good_row); vm_compute; reflexivity.
Defined.


(** C10, as the specification states it, fails: the "prompt" string ends
    with the assistant tag, not with "</s>\n"; and an absent key is not
    reached, so that the failure is a type error, when a key looked up
    before it holds a value that is not a string. *)
Lemma format_prompt_suffix_counterexample :
  Preference.formattable Sample.good_row /\
  (exists prompt,
     DPO.format_prompt Sample.good_row ≫= (fun out => getitem out "prompt")
       = Ok (VStr prompt) /\
     endswith prompt ("</s>" +:+ nl) = false) /\
  Sample.untyped_example !! "input" = None /\
  DPO.format_prompt Sample.untyped_example = Raise TypeError.
Proof.
  split; [| split; [| split; reflexivity]].
  - exists "You are an AI assistant.", "What is 2 + 2?", "4", "5".
    split; [| split; [| split]]; reflexivity.
  - eexists. split; vm_compute; reflexivity.
Qed.

(** C10, amended.  When the example holds strings at the four keys,
    [format_prompt] returns a result; its "chosen" and "rejected" strings
    end with "</s>\n" and its "prompt" string ends with
    " </s>\n<|assistant|>\n".  When one of the four keys is absent the
    function fails, and it fails with the lookup error of the first absent
    key (in the order system, input, chosen, rejected) when the keys before
    it hold strings. *)
Theorem format_prompt_safety (example : row) :
  (Preference.formattable example ->
   exists prompt chosen' rejected',
     DPO.format_prompt example =
       Ok {[ "prompt" := VStr prompt; "chosen" := VStr chosen';
             "rejected" := VStr rejected' ]} /\
     endswith prompt (" </s>" +:+ nl +:+ "<|assistant|>" +:+ nl) = true /\
     endswith chosen' ("</s>" +:+ nl) = true /\
     endswith rejected' ("</s>" +:+ nl) = true) /\
  ((example !! "system" = None \/ example !! "input" = None \/
    example !! "chosen" = None \/ example !! "rejected" = None) ->
   exists e, DPO.format_prompt example = Raise e) /\
  (example !! "system" = None ->
   DPO.format_prompt example = Raise (KeyError "system")) /\
  (forall system,
     example !! "system" = Some (VStr system) ->
     example !! "input" = None ->
     DPO.format_prompt example = Raise (KeyError "input")) /\
  (forall system input,
     example !! "system" = Some (VStr system) ->
     example !! "input" = Some (VStr input) ->
     example !! "chosen" = None ->
     DPO.format_prompt example = Raise (KeyError "chosen")) /\
  (forall system input chosen,
     example !! "system" = Some (VStr system) ->
     example !! "input" = Some (VStr input) ->
     example !! "chosen" = Some (VStr chosen) ->
     example !! "rejected" = None ->
     DPO.format_prompt example = Raise (KeyError "rejected")).
Proof.
  split; [| split; [| repeat split]].
  - intros Hstrings.
    destruct (format_prompt_formattable example Hstrings) as [out Hrun].
    rewrite Hrun. apply format_prompt_Ok_inv in Hrun
      as (system & input & chosen & rejected & _ & _ & _ & _ & ->).
    do 3 eexists. split; [reflexivity |].
    split; [| split]; try apply endswith_append.
    set (suffix := " </s>" +:+ nl +:+ "<|assistant|>" +:+ nl).
    rewrite <- !append_assoc. apply endswith_append.
  - intros Habsent.
    destruct (DPO.format_prompt example) as [out|e] eqn:Hrun; [| now exists e].
    apply format_prompt_Ok_inv in Hrun
      as (system & input & chosen & rejected & Hs & Hi & Hc & Hr & _).
    destruct Habsent as [H | [H | [H | H]]]; congruence.
  - intros Hs. unfold DPO.format_prompt.
    now rewrite (getitem_None _ _ Hs).
  - intros system Hs Hi. unfold DPO.format_prompt.
    now rewrite (getitem_Some _ _ _ Hs), (getitem_None _ _ Hi).
  - intros system input Hs Hi Hc. unfold DPO.format_prompt.
    now rewrite (getitem_Some _ _ _ Hs), (getitem_Some _ _ _ Hi),
      (getitem_None _ _ Hc).
  - intros system input chosen Hs Hi Hc Hr. unfold DPO.format_prompt.
    now rewrite (getitem_Some _ _ _ Hs), (getitem_Some _ _ _ Hi),
      (getitem_Some _ _ _ Hc), (getitem_None _ _ Hr).
Qed.

(** [format_prompt] and the filter lambda read nothing but their fields:
    two examples that agree on "system", "input", "chosen" and "rejected"
    get the same formatted result (or the same error), and two records
    that agree on "status", "chosen_score" and "in_gsm8k_train" get the
    same filter result. *)
Lemma functions_read_their_fields (e1 e2 : row) :
  ((forall k, k ∈ ["system"; "input"; "chosen"; "rejected"] ->
      e1 !! k = e2 !! k) ->
   DPO.format_prompt e1 = DPO.format_prompt e2) /\
  ((forall k, k ∈ ["status"; "chosen_score"; "in_gsm8k_train"] ->
      e1 !! k = e2 !! k) ->
   DPO.filter_lambda e1 = DPO.filter_lambda e2).
Proof.
  split.
  - intros Hagree. unfold DPO.format_prompt, getitem.
    rewrite !Hagree by set_solver. reflexivity.
  - intros Hagree. unfold DPO.filter_lambda, getitem.
    rewrite !Hagree by set_solver. reflexivity.
Qed.

End FormatPrompt.

Section PreferenceFilter.

Lemma ne_str_spec (s t : string) : ne_str (VStr s) t = true <-> s <> t.
Proof.
  simpl. rewrite negb_true_iff. split.
  - intros H ->. now rewrite eqb_refl in H.
  - intros H. now apply String.eqb_neq.
Qed.

Lemma ge_int_number (v : pyval) (n : Z) :
  Preference.is_number v ->
  exists b, ge_int v n = Ok b /\ (b = true <-> Preference.at_least v n).
Proof.
  destruct v as [| | z | f | | |]; simpl; try contradiction; intros _.
  - exists (n <=? z)%Z. split; [reflexivity | apply Z.leb_le].
  - exists (float_ge_int f n). split; [reflexivity |].
    destruct f as [| [|] | q]; simpl; try (split; [discriminate | contradiction]).
    + split; auto.
    + apply Qle_bool_iff.
Qed.


(** On a readable record the lambda returns a boolean, and it is [True]
    exactly for the wanted records. *)
Lemma filter_lambda_readable (r : row) :
  Preference.readable r ->
  exists b, DPO.filter_lambda r = Ok (VBool b) /\
            (b = true <-> Preference.wanted r).
Proof.
  intros (s & Hs & Hread).
  unfold DPO.filter_lambda, Preference.wanted.
  rewrite (getitem_Some _ _ _ Hs), Hs. cbn [mbind result_bind].
  destruct (ne_str (VStr s) "tie") eqn:Htie.
  - apply ne_str_spec in Htie.
    destruct (Hread Htie) as (v & Hv & Hnum & Hflag).
    rewrite (getitem_Some _ _ _ Hv). cbn [mbind result_bind].
    destruct (ge_int_number v 8 Hnum) as (high & -> & Hhigh).
    cbn [mbind result_bind]. destruct high.
    + destruct (Hflag (proj1 Hhigh eq_refl)) as [g Hg].
      rewrite (getitem_Some _ _ _ Hg), Hg. cbn [mbind result_bind truthy].
      exists (negb g). split; [reflexivity |].
      destruct g; simpl; split; try discriminate.
      * intros (_ & _ & [=]).
      * intros _. repeat split; [congruence |].
        exists v. split; [assumption | now apply Hhigh].
      * reflexivity.
    + exists false. split; [reflexivity |]. split; [discriminate |].
      intros (_ & (v' & Hv' & Hge) & _).
      assert (v' = v) as -> by congruence.
      apply Hhigh in Hge. discriminate.
  - exists false. split; [reflexivity |]. split; [discriminate |].
    intros (Hne & _). exfalso. apply Hne. f_equal. f_equal.
    simpl in Htie. apply negb_false_iff in Htie. now apply String.eqb_eq.
Qed.

(** C1.  On a dataset in which every record holds a string "status", a
    numeric "chosen_score" unless it is a tie, and a boolean
    "in_gsm8k_train" when the score is at least 8 (a tie may have no
    score), the filter returns a dataset.  The result is the dataset
    without the records that fail the condition: the retained records in
    their order, each as often as it occurs; a record of the dataset is in
    the result if and only if its status is not "tie", its chosen_score is
    at least 8 and its in_gsm8k_train is false, and a record that fails
    one of the three conditions is nowhere in the result. *)
Theorem filter_keeps_wanted (rows : list row) :
  Forall Preference.readable rows ->
  exists kept,
    Dataset.filter DPO.filter_lambda rows = Ok kept /\
    Preference.selects Preference.wanted rows kept /\
    sublist kept rows /\
    forall r, r ∈ kept <-> r ∈ rows /\ Preference.wanted r.
Proof.
  induction 1 as [| r rows Hr _ (kept & Hrun & Hsel & Hsub & Hkept)].
  - exists []. split; [reflexivity |]. split; [constructor |].
    split; [constructor |].
    intros r. split; [intros ?%elem_of_nil | intros [?%elem_of_nil _]]; tauto.
  - destruct (filter_lambda_readable r Hr) as (b & Hb & Hwanted).
    cbn [Dataset.filter]. rewrite Hb, Hrun. cbn [mbind result_bind truthy].
    destruct b.
    + exists (r :: kept). split; [reflexivity |].
      split; [apply Preference.selects_keep; [now apply Hwanted | assumption] |].
      split; [now constructor |].
      intros r'. rewrite !elem_of_cons, Hkept. split.
      * intros [-> | [Hin Hw]]; [| tauto].
        split; [now left | now apply Hwanted].
      * intros [[-> | Hin] Hw]; tauto.
    + assert (~ Preference.wanted r) as Hnot.
      { intros Hw. apply Hwanted in Hw. discriminate. }
      exists kept. split; [reflexivity |].
      split; [now apply Preference.selects_drop |].
      split; [now apply sublist_cons |].
      intros r'. rewrite elem_of_cons, Hkept. split.
      * intros [Hin Hw]. tauto.
      * intros [[-> | Hin] Hw]; tauto.
Qed.

Example filter_sample :
  Dataset.filter DPO.filter_lambda Sample.rows = Ok [Sample.good_row].
Proof. vm_compute. reflexivity. Qed.


Lemma pair_row_readable (status : string) (score : pyval) (flag : bool) :
  Preference.is_number score ->
  Preference.readable (Sample.pair_row status score flag).
Proof.
  intros Hnum. exists status. split; [reflexivity |]. intros _.
  exists score. split; [reflexivity |]. split; [assumption |].
  intros _. now exists flag.
Qed.

Lemma unscored_tie_readable : Preference.readable Edge.unscored_tie.
Proof. exists "tie". split; [reflexivity |]. now intros Hne. Qed.

Lemma filter_keeps_wanted_witness :
  exists kept,
    Dataset.filter DPO.filter_lambda Edge.rows_with_tie = Ok kept /\
    Preference.selects Preference.wanted Edge.rows_with_tie kept /\
    sublist kept Edge.rows_with_tie /\
    forall r, r ∈ kept <-> r ∈ Edge.rows_with_tie /\ Preference.wanted r.
Proof.
  apply (filter_keeps_wanted Edge.rows_with_tie).
  apply List.Forall_cons; [apply pair_row_readable; exact I |].
  apply List.Forall_cons; [apply unscored_tie_readable |].
  repeat (apply List.Forall_cons; [apply pair_row_readable; exact I |]).
  apply List.Forall_nil.
Defined.

Example filter_rows_with_tie :
  Dataset.filter DPO.filter_lambda Edge.rows_with_tie
    = Ok [Sample.good_row; Sample.good_row].
Proof. vm_compute. reflexivity. Qed.

End PreferenceFilter.

Section DatasetMap.

Lemma dom_remove_columns (remove_columns : list string) (r : row) :
  dom (Dataset.remove_columns_from remove_columns r) =
  dom r ∖ list_to_set remove_columns.
Proof.
  unfold Dataset.remove_columns_from.
  induction remove_columns as [| c cs IH]; simpl.
  - set_solver.
  - rewrite dom_delete_L, IH. set_solver.
Qed.

(** Removing all the columns of a row leaves the empty row. *)
Lemma remove_all_columns (column_names : list string) (r : row) :
  dom r = list_to_set column_names ->
  Dataset.remove_columns_from column_names r = ∅.
Proof.
  intros Hdom. apply dom_empty_iff_L.
  rewrite dom_remove_columns, Hdom. set_solver.
Qed.

(** With all the columns removed, the mapped dataset consists of the
    returned dictionaries, row by row. *)
Lemma map_all_columns (function : row -> result row)
    (column_names : list string) (rows rows' : list row) :
  Dataset.has_columns column_names rows ->
  Dataset.map function column_names rows = Ok rows' ->
  Forall2 (fun r r' => function r = Ok r') rows rows'.
Proof.
  intros Htable. revert rows'.
  induction Htable as [| r rows Hdom _ IH]; intros rows'; cbn [Dataset.map].
  - intros [= <-]. constructor.
  - destruct (function r) as [out|] eqn:Hout; [| discriminate].
    cbn [mbind result_bind].
    destruct (Dataset.map function column_names rows) as [rest|]; [| discriminate].
    cbn [mbind result_bind]. intros [= <-].
    rewrite (remove_all_columns _ _ Hdom), (right_id_L ∅ (∪)).
    constructor; [assumption | now apply IH].
Qed.

Lemma map_total (function : row -> result row) (remove_columns : list string)
    (rows : list row) :
  Forall (fun r => exists out, function r = Ok out) rows ->
  exists rows', Dataset.map function remove_columns rows = Ok rows'.
Proof.
  induction 1 as [| r rows (out & Hout) _ (rest & Hrest)]; cbn [Dataset.map].
  - now exists [].
  - rewrite Hout, Hrest. cbn [mbind result_bind]. eauto.
Qed.

Lemma dom_formatted (prompt chosen rejected : pyval) :
  dom ({[ "prompt" := prompt; "chosen" := chosen; "rejected" := rejected ]} : row)
  = {[ "prompt"; "chosen"; "rejected" ]}.
Proof. rewrite !dom_insert_L, dom_singleton_L. set_solver. Qed.

(** C9, as the specification states it, fails: "chosen" and "rejected" are
    columns of the source dataset, and the mapped rows have them. *)
Lemma map_keeps_chosen_counterexample :
  Dataset.has_columns Sample.column_names [Sample.good_row] /\
  "chosen" ∈ Sample.column_names /\
  "rejected" ∈ Sample.column_names /\
  exists r',
    Dataset.map DPO.format_prompt Sample.column_names [Sample.good_row]
      = Ok [r'] /\
    r' !! "chosen" = Some (VStr ("4</s>" +:+ nl)) /\
    r' !! "rejected" = Some (VStr ("5</s>" +:+ nl)).
Proof.
  split; [| split; [| split]].
  - constructor; [| constructor]. vm_compute. reflexivity.
  - set_solver.
  - set_solver.
  - eexists. split; [vm_compute; reflexivity |]. split; reflexivity.
Qed.


(** C9, amended.  After [map(format_prompt, remove_columns=column_names)]
    every row of the result has exactly the three columns "prompt",
    "chosen" and "rejected", holding what [format_prompt] returned for the
    source row; every other column of the source dataset (among them
    "system", "input", "status", "chosen_score" and "in_gsm8k_train") is
    absent.  The call returns a dataset when every source row holds strings
    at the four keys [format_prompt] reads. *)
Theorem map_leaves_formatted_columns (column_names : list string)
    (rows : list row) :
  Dataset.has_columns column_names rows ->
  (Forall Preference.formattable rows ->
   exists rows', Dataset.map DPO.format_prompt column_names rows = Ok rows') /\
  (forall rows',
     Dataset.map DPO.format_prompt column_names rows = Ok rows' ->
     Forall2 (fun r r' => DPO.format_prompt r = Ok r') rows rows' /\
     Forall (fun r' : row =>
       dom r' = {[ "prompt"; "chosen"; "rejected" ]} /\
       r' !! "system" = None /\ r' !! "input" = None /\
       r' !! "status" = None /\ r' !! "chosen_score" = None /\
       r' !! "in_gsm8k_train" = None /\
       forall c, c ∈ column_names ->
         c ∉ ["prompt"; "chosen"; "rejected"] -> r' !! c = None) rows').
Proof.
  intros Htable. split.
  - intros Hrows. apply map_total.
    eapply Forall_impl; [exact Hrows |].
    exact format_prompt_formattable.
  - intros rows' Hmap.
    pose proof (map_all_columns _ _ _ _ Htable Hmap) as Hrows.
    split; [assumption |].
    clear Hmap Htable. induction Hrows as [| r r' rows rows' Hr _ IH];
      constructor; [| assumption].
    apply format_prompt_Ok_inv in Hr as (s & i & c & j & _ & _ & _ & _ & ->).
    assert (forall k : string, k ∉ ["prompt"; "chosen"; "rejected"] ->
      ({[ "prompt" := VStr ("<|system|>" +:+ nl +:+ s +:+ "</s>" +:+ nl +:+
                            "<|user|>" +:+ nl +:+ i +:+
                            " </s>" +:+ nl +:+ "<|assistant|>" +:+ nl);
          "chosen" := VStr (c +:+ "</s>" +:+ nl);
          "rejected" := VStr (j +:+ "</s>" +:+ nl) ]} : row) !! k = None)
      as Habsent.
    { intros k Hk. apply not_elem_of_dom. rewrite dom_formatted. set_solver. }
    split; [apply dom_formatted |].
    repeat split; try (apply Habsent; set_solver).
    intros k _ Hk. now apply Habsent.
Qed.

Lemma map_leaves_formatted_columns_witness :
  (Forall Preference.formattable [Sample.good_row] ->
   exists rows',
     Dataset.map DPO.format_prompt Sample.column_names [Sample.good_row]
       = Ok rows') /\
  (forall rows',
     Dataset.map DPO.format_prompt Sample.column_names [Sample.good_row]
       = Ok rows' ->
     Forall2 (fun r r' => DPO.format_prompt r = Ok r') [Sample.good_row] rows' /\
     Forall (fun r' : row =>
       dom r' = {[ "prompt"; "chosen"; "rejected" ]} /\
       r' !! "system" = None /\ r' !! "input" = None /\
       r' !! "status" = None /\ r' !! "chosen_score" = None /\
       r' !! "in_gsm8k_train" = None /\
       forall c, c ∈ Sample.column_names ->
         c ∉ ["prompt"; "chosen"; "rejected"] -> r' !! c = None) rows').
Proof.
  apply (map_leaves_formatted_columns Sample.column_names [Sample.good_row]).
  apply List.Forall_cons; [| apply List.Forall_nil].
  vm_compute. reflexivity.
Defined.

End DatasetMap.

Section Templates.

(** A template reads only the string-valued fields of an example. *)
Lemma render_string_fields (template : list Template.piece) (e1 e2 : row)
    (s : string) :
  (forall k x, e1 !! k = Some (VStr x) -> e2 !! k = Some (VStr x)) ->
  Template.render template e1 = Some s ->
  Template.render template e2 = Some s.
Proof.
  intros Hagree. revert s.
  induction template as [| [lit | key] rest IH]; intros s; cbn [Template.render].
  - trivial.
  - destruct (Template.render rest e1) as [tail|]; [| discriminate].
    now rewrite (IH tail eq_refl).
  - destruct (e1 !! key) as [[| | | | x | |]|] eqn:Hkey; try discriminate.
    rewrite (Hagree _ _ Hkey).
    destruct (Template.render rest e1) as [tail|]; [| discriminate].
    now rewrite (IH tail eq_refl).
Qed.

Lemma short_chat_no_string (k x : string) :
  Template.short_chat !! k = Some (VStr x) ->
  Template.long_chat !! k = Some (VStr x).
Proof.
  unfold Template.short_chat. intros H.
  apply lookup_singleton_Some in H as [_ H]. discriminate.
Qed.

(** C3, as the specification states it, fails for the instruction-tuning
    notebook: its [format_prompt] stores what the tokenizer's chat template
    makes of the list under "messages".  With a chat template that renders
    the messages of the conversation, two examples that have no string
    field at all get different texts, which no template over the fields of
    the example produces. *)
Lemma chat_template_counterexample :
  ~ Template.built_by_concatenation
      (SFT.format_prompt Template.chat_tokenizer) "text".
Proof.
  intros (template & Hbuilt).
  destruct (Hbuilt Template.short_chat _ eq_refl) as (s1 & Hs1 & Hr1).
  destruct (Hbuilt Template.long_chat _ eq_refl) as (s2 & Hs2 & Hr2).
  apply (render_string_fields _ _ _ _ short_chat_no_string) in Hr1.
  rewrite Hr1 in Hr2. injection Hr2 as <-.
  vm_compute in Hs1, Hs2. congruence.
Qed.

(** C3, amended.  The preference-tuning notebook's [format_prompt] builds
    its three strings by concatenating fields of the example with fixed
    literals: "prompt", "chosen" and "rejected" are the renderings of three
    fixed templates.  The instruction-tuning notebook's [format_prompt]
    concatenates nothing: the value under "text" is whatever the
    tokenizer's [apply_chat_template] returns for the value under
    "messages". *)
Theorem prompts_by_template :
  (forall example out,
     DPO.format_prompt example = Ok out ->
     exists prompt chosen rejected,
       Template.render Template.prompt_template example = Some prompt /\
       Template.render Template.chosen_template example = Some chosen /\
       Template.render Template.rejected_template example = Some rejected /\
       out = {[ "prompt" := VStr prompt; "chosen" := VStr chosen;
                "rejected" := VStr rejected ]}) /\
  Template.built_by_concatenation DPO.format_prompt "prompt" /\
  (forall template_tokenizer example out,
     SFT.format_prompt template_tokenizer example = Ok out <->
     exists chat text,
       example !! "messages" = Some chat /\
       SFT.apply_chat_template template_tokenizer chat = Ok text /\
       out = {[ "text" := text ]}).
Proof.
  assert (forall example out,
     DPO.format_prompt example = Ok out ->
     exists prompt chosen rejected,
       Template.render Template.prompt_template example = Some prompt /\
       Template.render Template.chosen_template example = Some chosen /\
       Template.render Template.rejected_template example = Some rejected /\
       out = {[ "prompt" := VStr prompt; "chosen" := VStr chosen;
                "rejected" := VStr rejected ]}) as Hdpo.
  { intros example out Hrun.
    apply format_prompt_Ok_inv in Hrun
      as (system & input & chosen & rejected & Hs & Hi & Hc & Hr & ->).
    do 3 eexists. cbn [Template.render Template.prompt_template
      Template.chosen_template Template.rejected_template].
    rewrite Hs, Hi, Hc, Hr. cbn [mbind option_bind].
    repeat split; reflexivity. }
  split; [exact Hdpo | split].
  - exists Template.prompt_template. intros example out Hrun.
    destruct (Hdpo example out Hrun) as (prompt & c & r & Hp & _ & _ & ->).
    exists prompt. split; [reflexivity | assumption].
  - intros tok example out. unfold SFT.format_prompt, getitem. split.
    + destruct (example !! "messages") as [chat|]; [| discriminate].
      cbn [mbind result_bind].
      destruct (SFT.apply_chat_template tok chat) as [text|] eqn:Htext;
        [| discriminate].
      cbn [mbind result_bind]. intros [= <-]. now exists chat, text.
    + intros (chat & text & -> & Htext & ->).
      cbn [mbind result_bind]. now rewrite Htext.
Qed.

End Templates.

(** ** Properties of the call sequences *)

Section Traces.

Lemma all_from_sound (P : nat -> event -> bool) (t : list event) (start : nat) :
  Trace.all_from start P t = true ->
  forall i ev, t !! i = Some ev -> P (start + i)%nat ev = true.
Proof.
  revert start. induction t as [| ev' t IH]; intros start Hall i ev Hi.
  - discriminate.
  - cbn [Trace.all_from] in Hall. apply andb_true_iff in Hall as [Hhead Htail].
    destruct i as [| i]; simpl in Hi.
    + injection Hi as <-. now rewrite Nat.add_0_r.
    + rewrite Nat.add_succ_r. now apply (IH (S start)).
Qed.

Lemma only_atb_sound (t : list event) (P : event -> bool) (i : nat) :
  Trace.only_atb t P i = true -> Trace.only_at t P i.
Proof.
  intros Hall j ev Hj HP.
  pose proof (all_from_sound _ _ _ Hall j ev Hj) as H.
  simpl in H. rewrite HP in H. simpl in H. now apply Nat.eqb_eq.
Qed.

Lemma in_orderb_sound (l : list (option Trace.stage)) :
  Trace.in_orderb l = true -> Trace.in_order l.
Proof.
  induction l as [| o l IH]; intros Hsorted i j a b Hi Hj Hrank.
  - discriminate.
  - assert (Trace.in_orderb l = true) as Htail.
    { destruct o; cbn [Trace.in_orderb] in Hsorted; [| assumption].
      now apply andb_true_iff in Hsorted as [_ ?]. }
    destruct i as [| i], j as [| j]; simpl in Hi, Hj.
    + injection Hi as ->. injection Hj as [= ->]. lia.
    + lia.
    + exfalso. injection Hj as ->. cbn [Trace.in_orderb] in Hsorted.
      apply andb_true_iff in Hsorted as [Hall _].
      rewrite forallb_forall in Hall.
      assert (In (Some a) l) as Hin.
      { apply list_elem_of_In. now apply (list_elem_of_lookup_2 l i). }
      specialize (Hall _ Hin). simpl in Hall.
      apply Nat.leb_le in Hall. lia.
    + apply ->Nat.succ_lt_mono. now apply (IH Htail i j a b).
Qed.

Lemma has_stage_sound (l : list (option Trace.stage)) (s : Trace.stage) :
  Trace.has_stage l s = true -> exists i, l !! i = Some (Some s).
Proof.
  unfold Trace.has_stage. rewrite existsb_exists.
  intros ([s'|] & Hin & Hs); [| discriminate].
  apply Nat.eqb_eq in Hs.
  assert (s' = s) as -> by (destruct s, s'; simpl in Hs; congruence).
  apply list_elem_of_In, list_elem_of_lookup_1 in Hin. exact Hin.
Qed.

Lemma completeb_sound (l : list (option Trace.stage)) :
  Trace.completeb l = true -> Trace.complete l.
Proof.
  unfold Trace.completeb. rewrite forallb_forall. intros Hall s.
  apply has_stage_sound, Hall. destruct s; simpl; tauto.
Qed.

(** A sequence that passes the two checks follows the steps. *)
Lemma follows_the_steps_check (t : list event) :
  Trace.in_orderb (Trace.stages t) = true ->
  Trace.completeb (Trace.stages t) = true ->
  Trace.follows_the_steps t.
Proof.
  intros Horder%in_orderb_sound Hall%completeb_sound.
  split; [assumption | split; [assumption |]].
  intros i Hi. destruct (Hall Trace.Merge) as [j Hj].
  exists j. split; [| assumption].
  apply (Horder j i Trace.Merge Trace.Generate Hj Hi). simpl. lia.
Qed.

(** C4.  In both notebooks, top to bottom: the dataset is loaded, then
    mapped through [format_prompt], then the configuration objects are
    constructed, then [train()] is called, then [merge_and_unload()], and
    only then [pipeline()] and the generation with its result; every one of
    these steps occurs, and no generation comes before the merge. *)
Theorem notebooks_follow_the_steps :
  Trace.follows_the_steps (trace sft_notebook) /\
  Trace.follows_the_steps (trace dpo_notebook).
Proof.
  split; apply follows_the_steps_check; vm_compute; reflexivity.
Qed.


Lemma neverb_sound (t : list event) (P : event -> bool) :
  Trace.neverb t P = true -> Trace.never t P.
Proof.
  unfold Trace.neverb. rewrite forallb_forall. intros Hall j ev Hj.
  apply negb_true_iff, Hall, list_elem_of_In.
  now apply (list_elem_of_lookup_2 t j).
Qed.

Ltac only_at_by_check := apply only_atb_sound; vm_compute; reflexivity.
Ltac never_by_check := apply neverb_sound; vm_compute; reflexivity.

(** Facts about a given sequence of events, each settled by running the
    notebook. *)
Ltac trace_facts :=
  repeat match goal with
         | |- _ /\ _ => split
         | |- (_ < _)%nat => lia
         | |- Trace.only_at _ _ _ => only_at_by_check
         | |- Trace.never _ _ => never_by_check
         | |- _ = _ => vm_compute; reflexivity
         end.

Lemma quantized_by_config_at (t : list event) (config load : nat)
    (model_name : value) (kwargs : list (string * value)) :
  t !! config = Some (Call (Global "BitsAndBytesConfig") [] Trace.bnb_kwargs) ->
  t !! load = Some (Call (Attr (Global "AutoModelForCausalLM") "from_pretrained")
                      [model_name] kwargs) ->
  Trace.kwarg kwargs "quantization_config" = Some (Obj config) ->
  (config <? load)%nat = true ->
  Trace.only_atb t (Trace.event_mentions config) load = true ->
  Trace.only_atb t (Trace.is_global_call "BitsAndBytesConfig") config = true ->
  Trace.only_atb t (Trace.has_kwarg "quantization_config") load = true ->
  Trace.quantized_by_config t.
Proof.
  intros Hconfig Hload Hkwarg Hlt%Nat.ltb_lt H1%only_atb_sound
    H2%only_atb_sound H3%only_atb_sound.
  exists config, load, model_name, kwargs. tauto.
Qed.

Lemma library_steps_check (t : list event) :
  forallb (Trace.library_step t) t = true -> Trace.library_steps_only t.
Proof.
  intros Hall. apply Forall_forall. intros ev Hin.
  rewrite forallb_forall in Hall. now apply Hall, list_elem_of_In.
Qed.

Lemma filter_lambda_boolean (r : row) (v : pyval) :
  DPO.filter_lambda r = Ok v -> exists b, v = VBool b.
Proof.
  unfold DPO.filter_lambda.
  destruct (getitem r "status") as [status|]; [| discriminate].
  cbn [mbind result_bind]. destruct (ne_str status "tie"); [| intros [= <-]; eauto].
  destruct (getitem r "chosen_score") as [score|]; [| discriminate].
  cbn [mbind result_bind]. destruct (ge_int score 8) as [[|]|]; [| | discriminate].
  - cbn [mbind result_bind].
    destruct (getitem r "in_gsm8k_train") as [flag|]; [| discriminate].
    intros [= <-]. eauto.
  - intros [= <-]. eauto.
Qed.

(** C6.  Both notebooks construct one [BitsAndBytesConfig], with
    [load_in_4bit=True], [bnb_4bit_quant_type="nf4"],
    [bnb_4bit_compute_dtype="float16"] and [bnb_4bit_use_double_quant=True],
    and pass the object, untouched in between, as the [quantization_config]
    argument of [AutoModelForCausalLM.from_pretrained]; nothing else in a
    notebook constructs, changes or uses a quantization configuration.
    The notebooks do no quantization arithmetic of their own: every step
    of a notebook is a call of a library entry point or method, or the
    assignment of a literal to one of four settings, and the functions the
    notebooks define return strings, a boolean, or what the tokenizer
    returned. *)
Theorem quantization_by_config_only :
  Trace.quantization_delegated (trace sft_notebook) /\
  Trace.quantization_delegated (trace dpo_notebook) /\
  (forall example out k v,
     DPO.format_prompt example = Ok out -> out !! k = Some v ->
     exists s, v = VStr s) /\
  (forall r v, DPO.filter_lambda r = Ok v -> exists b, v = VBool b) /\
  (forall template_tokenizer example out k v,
     SFT.format_prompt template_tokenizer example = Ok out ->
     out !! k = Some v ->
     exists chat, example !! "messages" = Some chat /\
       SFT.apply_chat_template template_tokenizer chat = Ok v).
Proof.
  split; [| split; [| split; [| split]]].
  - split; [| apply library_steps_check; vm_compute; reflexivity].
    apply (quantized_by_config_at _ 7 8
      (StrV "TinyLlama/TinyLlama-1.1B-intermediate-step-1431k-3T")
      [("device_map", StrV "auto"); ("quantization_config", Obj 7)]);
      vm_compute; reflexivity.
  - split; [| apply library_steps_check; vm_compute; reflexivity].
    apply (quantized_by_config_at _ 3 7
      (StrV "TinyLlama/TinyLlama-1.1B-Chat-v1.0")
      [("device_map", StrV "auto"); ("quantization_config", Obj 3);
       ("trust_remote_code", BoolV true)]);
      vm_compute; reflexivity.
  - intros example out k v Hrun Hk.
    apply format_prompt_Ok_inv in Hrun
      as (system & input & chosen & rejected & _ & _ & _ & _ & ->).
    apply lookup_insert_Some in Hk as [[_ <-] | [_ Hk]]; [eauto |].
    apply lookup_insert_Some in Hk as [[_ <-] | [_ Hk]]; [eauto |].
    apply lookup_singleton_Some in Hk as [_ <-]. eauto.
  - exact filter_lambda_boolean.
  - intros tok example out k v Hrun Hk. unfold SFT.format_prompt, getitem in Hrun.
    destruct (example !! "messages") as [chat|]; [| discriminate].
    cbn [mbind result_bind] in Hrun.
    destruct (SFT.apply_chat_template tok chat) as [text|] eqn:Htext;
      [| discriminate].
    cbn [mbind result_bind] in Hrun. injection Hrun as <-.
    apply lookup_singleton_Some in Hk as [_ <-]. now exists chat.
Qed.

(** C7, as the specification states it, fails in the instruction-tuning
    notebook: the merged model is handed to the pipeline and is never
    saved. *)
Lemma merged_model_counterexample :
  ~ Trace.merged_model_saved_and_used (trace sft_notebook).
Proof.
  intros (merge & receiver & Hmerge & (i & args & kwargs & _ & Hsave) & _).
  assert (Trace.only_at (trace sft_notebook)
            (Trace.is_method_call "merge_and_unload") 22) as Honce
    by only_at_by_check.
  pose proof (Honce _ _ Hmerge eq_refl) as Hm. subst merge.
  assert (Trace.never (trace sft_notebook) (Trace.saves_object 22))
    as Hnever by never_by_check.
  pose proof (Hnever _ _ Hsave) as Hi. discriminate.
Qed.

(** C7, amended.  In each notebook exactly one [merge_and_unload()] call is
    made, after training, on the model that bears the trained adapter.  In
    the instruction-tuning notebook the merged model it returns is the
    model of the generation pipeline and is not saved; in the
    preference-tuning notebook the merged model is saved, and the
    generation pipeline runs a model loaded from the directory it was
    saved to. *)
Theorem merge_once_after_training :
  Trace.merged_then_used (trace sft_notebook) /\
  Trace.merged_saved_reloaded (trace dpo_notebook).
Proof.
  split.
  - exists 18, 19, 20, 21, 22, 23.
    exists [("task", StrV "text-generation"); ("model", Obj 22);
            ("tokenizer", Obj 11)].
    trace_facts.
  - exists (Obj 11), (Obj 10), 12, 14.
    exists [("ref_model", NoneV); ("args", Obj 13); ("train_dataset", Obj 2);
            ("tokenizer", Obj 4); ("peft_config", Obj 10);
            ("beta", FloatLit "0.1"); ("max_prompt_length", IntV 512);
            ("max_length", IntV 512)].
    exists 15, 25, 26, 28.
    exists [("device_map", StrV "auto"); ("trust_remote_code", BoolV true)].
    exists 30.
    exists [("model", Obj 28); ("tokenizer", Obj 29);
            ("max_new_tokens", IntV 256); ("temperature", FloatLit "0.7");
            ("do_sample", BoolV true)].
    trace_facts.
Qed.

Lemma filter_sublist (function : row -> result pyval) (rows kept : list row) :
  Dataset.filter function rows = Ok kept -> sublist kept rows.
Proof.
  revert kept. induction rows as [| r rows IH]; intros kept; cbn [Dataset.filter].
  - intros [= <-]. constructor.
  - destruct (function r) as [keep|]; [| discriminate].
    cbn [mbind result_bind].
    destruct (Dataset.filter function rows) as [rest|]; [| discriminate].
    cbn [mbind result_bind]. intros [= <-].
    destruct (truthy keep); [apply sublist_skip | apply sublist_cons]; now apply IH.
Qed.

(** C5.  The [DPOTrainer] is constructed with [ref_model=None] and with no
    reward model, and its training data is the dataset produced by
    [map(format_prompt, ...)] from the filtered dataset: every training
    example is the dictionary [format_prompt] returned for a record of the
    loaded dataset, a triple of a prompt, a chosen completion and a
    rejected completion. *)
Theorem dpo_trains_on_preference_triples :
  Trace.trained_on_formatted_pairs (trace dpo_notebook) /\
  forall column_names loaded kept examples,
    Dataset.has_columns column_names loaded ->
    Dataset.filter DPO.filter_lambda loaded = Ok kept ->
    Dataset.map DPO.format_prompt column_names kept = Ok examples ->
    Forall (fun example : row =>
      exists r prompt chosen rejected,
        r ∈ loaded /\
        DPO.format_prompt r = Ok example /\
        example = {[ "prompt" := VStr prompt; "chosen" := VStr chosen;
                     "rejected" := VStr rejected ]}) examples.
Proof.
  split.
  - exists 0, 1, 2, 14, 15, (Obj 12), (Obj 13), (Obj 4), (Obj 10).
    trace_facts.
  - intros column_names loaded kept examples Htable Hfilter Hmap.
    apply filter_sublist in Hfilter.
    assert (Dataset.has_columns column_names kept) as Hkept.
    { unfold Dataset.has_columns in *. rewrite Forall_forall in *.
      intros r Hr. apply Htable. now apply (elem_of_sublist kept). }
    pose proof (map_all_columns _ _ _ _ Hkept Hmap) as Hrows.
    assert (forall r, r ∈ kept -> r ∈ loaded) as Hin
      by (intros r Hr; now apply (elem_of_sublist kept)).
    clear Hmap Hkept Hfilter Htable.
    induction Hrows as [| r example kept examples Hr _ IH]; constructor.
    + pose proof Hr as Hrun.
      apply format_prompt_Ok_inv in Hr as (s & i & c & j & _ & _ & _ & _ & ->).
      exists r. do 3 eexists.
      split; [apply Hin; now left | split; [exact Hrun | reflexivity]].
    + apply IH. intros r' Hr'. apply Hin. now right.
Qed.

End Traces.

(** ** Edge cases of the functions *)

Section EdgeCases.

Lemma ne_str_other (v : pyval) (t : string) :
  v <> VStr t -> ne_str v t = true.
Proof.
  destruct v as [| | | | s | |]; try reflexivity.
  intros Hne. apply ne_str_spec. congruence.
Qed.

Lemma ne_str_same (t : string) : ne_str (VStr t) t = false.
Proof. simpl. now rewrite eqb_refl. Qed.

Lemma ge_int_comparable (v : pyval) (n : Z) :
  Edge.comparable v -> exists b, ge_int v n = Ok b.
Proof. destruct v; simpl; try contradiction; eauto. Qed.

Lemma ge_int_raises (v : pyval) (n : Z) (e : pyerr) :
  ge_int v n = Raise e -> ~ Edge.comparable v /\ e = TypeError.
Proof. destruct v; simpl; try discriminate; intros [= <-]; tauto. Qed.

Lemma ge_int_at_least (v : pyval) :
  ge_int v 8 = Ok true <-> Preference.at_least v 8.
Proof.
  destruct v as [| [|] | z | [| [|] | q] | | |]; simpl;
    try (split; [discriminate | contradiction]).
  - split; [intros [= H] | intros H; f_equal]; now apply Z.leb_le.
  - tauto.
  - split; [intros [= H] | intros H; f_equal]; now apply Qle_bool_iff.
Qed.

(** X1.  The filter lambda stops at the first condition that fails: a tie is
    dropped without its score being read, and a record whose score is a
    number below 8 is dropped without its "in_gsm8k_train" being read, so
    that neither a missing nor an ill-typed later field makes it fail. *)
Theorem filter_lambda_short_circuit (r : row) :
  (r !! "status" = Some (VStr "tie") ->
   DPO.filter_lambda r = Ok (VBool false)) /\
  (forall status score,
     r !! "status" = Some status -> status <> VStr "tie" ->
     r !! "chosen_score" = Some score ->
     Edge.comparable score -> ~ Preference.at_least score 8 ->
     DPO.filter_lambda r = Ok (VBool false)).
Proof.
  split.
  - intros Hs. unfold DPO.filter_lambda.
    rewrite (getitem_Some _ _ _ Hs). cbn [mbind result_bind].
    now rewrite ne_str_same.
  - intros status score Hs Hne Hv Hnum Hlow. unfold DPO.filter_lambda.
    rewrite (getitem_Some _ _ _ Hs). cbn [mbind result_bind].
    rewrite (ne_str_other _ _ Hne), (getitem_Some _ _ _ Hv).
    cbn [mbind result_bind].
    destruct (ge_int_comparable score 8 Hnum) as [[|] Hge]; rewrite Hge.
    + now apply ge_int_at_least in Hge.
    + reflexivity.
Qed.

(** X2.  Whatever the record holds, a result of the filter lambda is a Python
    boolean; and the lambda fails in exactly three ways: a missing
    "status"; for a status other than "tie", a missing "chosen_score" or
    one that does not compare with a number; and for a score of at least
    8, a missing "in_gsm8k_train". *)
Theorem filter_lambda_outcomes (r : row) :
  (forall v, DPO.filter_lambda r = Ok v -> exists b, v = VBool b) /\
  (forall e, DPO.filter_lambda r = Raise e <->
     (r !! "status" = None /\ e = KeyError "status") \/
     (exists status, r !! "status" = Some status /\ status <> VStr "tie" /\
        ((r !! "chosen_score" = None /\ e = KeyError "chosen_score") \/
         (exists score, r !! "chosen_score" = Some score /\
            ~ Edge.comparable score /\ e = TypeError) \/
         (exists score, r !! "chosen_score" = Some score /\
            Preference.at_least score 8 /\
            r !! "in_gsm8k_train" = None /\ e = KeyError "in_gsm8k_train")))).
Proof.
  unfold DPO.filter_lambda, getitem.
  destruct (r !! "status") as [status|] eqn:Hs; cbn [mbind result_bind].
  2:{ split; [discriminate |]. intros e. split.
      - intros [= <-]. now left.
      - intros [[_ ->] | (status & [=] & _)]. reflexivity. }
  destruct (ne_str status "tie") eqn:Htie.
  2:{ assert (status = VStr "tie") as ->.
      { destruct status; try discriminate. simpl in Htie.
        apply negb_false_iff, String.eqb_eq in Htie. now subst. }
      split; [intros v [= <-]; eauto |]. intros e. split; [discriminate |].
      intros [[[=] _] | (status & [= <-] & Hne & _)]. now destruct Hne. }
  assert (status <> VStr "tie") as Hne.
  { intros ->. now rewrite ne_str_same in Htie. }
  destruct (r !! "chosen_score") as [score|] eqn:Hv; cbn [mbind result_bind].
  2:{ split; [discriminate |]. intros e. split.
      - intros [= <-]. right. exists status. auto.
      - intros [[[=] _] | (st & _ & _ & [[_ ->] | [H | H]])];
          [reflexivity | |]; destruct H as (score & [=] & _). }
  destruct (ge_int score 8) as [high|e'] eqn:Hge; cbn [mbind result_bind].
  2:{ apply ge_int_raises in Hge as [Hcmp ->].
      split; [discriminate |]. intros e. split.
      - intros [= <-]. right. exists status. split; [reflexivity |].
        split; [assumption |]. right. left. now exists score.
      - intros [[[=] _] | (st & _ & _ & [[[=] _] | [H | H]])].
        + now destruct H as (sc & _ & _ & ->).
        + destruct H as (sc & [= <-] & Hge & _). exfalso. apply Hcmp.
          destruct score as [| | | [| [|] |] | | |]; simpl in *; tauto. }
  destruct high.
  - apply ge_int_at_least in Hge.
    destruct (r !! "in_gsm8k_train") as [flag|] eqn:Hg; cbn [mbind result_bind].
    + split; [intros v [= <-]; eauto |]. intros e. split; [discriminate |].
      intros [[[=] _] | (st & _ & _ & [[[=] _] | [H | H]])].
      * destruct H as (sc & [= <-] & Hcmp & _). exfalso. apply Hcmp.
        destruct score as [| | | [| [|] |] | | |]; simpl in *; tauto.
      * destruct H as (sc & _ & _ & [=] & _).
    + split; [discriminate |]. intros e. split.
      * intros [= <-]. right. exists status. split; [reflexivity |].
        split; [assumption |]. right. right. now exists score.
      * intros [[[=] _] | (st & _ & _ & [[[=] _] | [H | H]])].
        -- destruct H as (sc & [= <-] & Hcmp & _). exfalso. apply Hcmp.
           destruct score as [| | | [| [|] |] | | |]; simpl in *; tauto.
        -- now destruct H as (sc & _ & _ & _ & ->).
  - split; [intros v [= <-]; eauto |]. intros e. split; [discriminate |].
    intros [[[=] _] | (st & _ & _ & [[[=] _] | [H | H]])].
    + destruct H as (sc & [= <-] & Hcmp & _). exfalso. apply Hcmp.
      destruct score; simpl in *; try discriminate; tauto.
    + destruct H as (sc & [= <-] & Hat & _).
      apply ge_int_at_least in Hat. congruence.
Qed.


Lemma length_append (a b : string) :
  String.length (a +:+ b) = (String.length a + String.length b)%nat.
Proof.
  induction a as [| ch a IH]; [reflexivity |].
  rewrite append_cons. simpl. now rewrite IH.
Qed.

Lemma append_cancel_r (a b s : string) : a +:+ s = b +:+ s -> a = b.
Proof.
  revert b. induction a as [| ch a IH]; intros [| ch' b] H.
  - reflexivity.
  - apply (f_equal String.length) in H.
    rewrite !length_append in H. simpl in H. lia.
  - apply (f_equal String.length) in H.
    rewrite !length_append in H. simpl in H. lia.
  - rewrite !append_cons in H. injection H as -> H. f_equal. now apply IH.
Qed.

Lemma append_cancel_l (p a b : string) : p +:+ a = p +:+ b -> a = b.
Proof.
  induction p as [| ch p IH]; [trivial |].
  rewrite !append_cons. intros [= H]. now apply IH.
Qed.

Lemma lookup_formatted (prompt chosen rejected : pyval) :
  ({[ "prompt" := prompt; "chosen" := chosen; "rejected" := rejected ]} : row)
    !! "prompt" = Some prompt /\
  ({[ "prompt" := prompt; "chosen" := chosen; "rejected" := rejected ]} : row)
    !! "chosen" = Some chosen /\
  ({[ "prompt" := prompt; "chosen" := chosen; "rejected" := rejected ]} : row)
    !! "rejected" = Some rejected /\
  forall k, k ∉ ["prompt"; "chosen"; "rejected"] ->
    ({[ "prompt" := prompt; "chosen" := chosen; "rejected" := rejected ]} : row)
      !! k = None.
Proof.
  repeat split; try reflexivity.
  intros k Hk. apply not_elem_of_dom. rewrite dom_formatted. set_solver.
Qed.

(** A given key is none of the keys of a given list. *)
Ltac other_key :=
  let H := fresh in
  intros H;
  repeat (apply elem_of_cons in H as [H | H]; [discriminate H |]);
  now apply elem_of_nil in H.

Lemma not_is_str (v : pyval) : ~ Edge.is_str v -> forall s, v <> VStr s.
Proof. intros H s ->. now apply H. Qed.

(** X3.  [format_prompt] returns a result exactly for the examples that hold
    strings (empty ones included) at its four keys.  Otherwise it fails at
    the first of the keys, in the order system, input, chosen, rejected,
    that does not hold a string: with the lookup error of that key when
    the key is absent, with a type error when it holds another value
    (a null, a number, a list). *)
Theorem format_prompt_domain (example : row) :
  ((exists out, DPO.format_prompt example = Ok out) <->
   Preference.formattable example) /\
  (forall e, DPO.format_prompt example = Raise e ->
     exists before k after,
       Edge.prompt_keys = (before ++ k :: after)%list /\
       (forall k', k' ∈ before -> exists s, example !! k' = Some (VStr s)) /\
       ((example !! k = None /\ e = KeyError k) \/
        (exists v, example !! k = Some v /\ ~ Edge.is_str v /\ e = TypeError))).
Proof.
  split.
  - split; [| apply format_prompt_formattable].
    intros [out Hrun]. apply format_prompt_Ok_inv in Hrun
      as (system & input & chosen & rejected & Hs & Hi & Hc & Hr & _).
    now exists system, input, chosen, rejected.
  - intros e. unfold DPO.format_prompt, getitem.
    destruct (example !! "system") as [system|] eqn:Hs.
    2:{ intros [= <-]. exists [], "system", ["input"; "chosen"; "rejected"].
        split; [reflexivity |]. split; [intros k' ?%elem_of_nil; tauto |].
        now left. }
    destruct system as [| | | | system | |];
      try (cbn [mbind result_bind str_add]; intros [= <-]; exists [], "system", ["input"; "chosen"; "rejected"];
           split; [reflexivity |]; split; [intros k' ?%elem_of_nil; tauto |];
           right; eexists; split; [eassumption |]; split; [tauto | reflexivity]).
    assert (forall k', k' ∈ ["system"] -> exists s, example !! k' = Some (VStr s))
      as H1 by (intros k' ->%list_elem_of_singleton; eauto).
    destruct (example !! "input") as [input|] eqn:Hi.
    2:{ intros [= <-]. exists ["system"], "input", ["chosen"; "rejected"].
        split; [reflexivity |]. split; [exact H1 |]. now left. }
    destruct input as [| | | | input | |];
      try (cbn [mbind result_bind str_add]; intros [= <-]; exists ["system"], "input", ["chosen"; "rejected"];
           split; [reflexivity |]; split; [exact H1 |];
           right; eexists; split; [eassumption |]; split; [tauto | reflexivity]).
    assert (forall k', k' ∈ ["system"; "input"] ->
              exists s, example !! k' = Some (VStr s)) as H2.
    { intros k' [-> | ->%list_elem_of_singleton]%elem_of_cons; eauto. }
    destruct (example !! "chosen") as [chosen|] eqn:Hc.
    2:{ intros [= <-]. exists ["system"; "input"], "chosen", ["rejected"].
        split; [reflexivity |]. split; [exact H2 |]. now left. }
    destruct chosen as [| | | | chosen | |];
      try (cbn [mbind result_bind str_add]; intros [= <-]; exists ["system"; "input"], "chosen", ["rejected"];
           split; [reflexivity |]; split; [exact H2 |];
           right; eexists; split; [eassumption |]; split; [tauto | reflexivity]).
    assert (forall k', k' ∈ ["system"; "input"; "chosen"] ->
              exists s, example !! k' = Some (VStr s)) as H3.
    { intros k' [-> | [-> | ->%list_elem_of_singleton]%elem_of_cons]%elem_of_cons;
        eauto. }
    destruct (example !! "rejected") as [rejected|] eqn:Hr.
    2:{ intros [= <-]. exists ["system"; "input"; "chosen"], "rejected", [].
        split; [reflexivity |]. split; [exact H3 |]. now left. }
    destruct rejected as [| | | | rejected | |];
      try (cbn [mbind result_bind str_add]; intros [= <-]; exists ["system"; "input"; "chosen"], "rejected", [];
           split; [reflexivity |]; split; [exact H3 |];
           right; eexists; split; [eassumption |]; split; [tauto | reflexivity]).
    discriminate.
Qed.


(** X4.  A formatted row cannot go through the two steps again: it has no
    "system" column for [format_prompt] and no "status" column for the
    filter, so both fail with a lookup error.  The filter has to come
    before the map. *)
Theorem formatted_row_not_reusable (example out : row) :
  DPO.format_prompt example = Ok out ->
  DPO.format_prompt out = Raise (KeyError "system") /\
  DPO.filter_lambda out = Raise (KeyError "status").
Proof.
  intros Hrun. apply format_prompt_Ok_inv in Hrun
    as (system & input & chosen & rejected & _ & _ & _ & _ & ->).
  destruct (lookup_formatted
              (VStr ("<|system|>" +:+ nl +:+ system +:+ "</s>" +:+ nl +:+
                     "<|user|>" +:+ nl +:+ input +:+
                     " </s>" +:+ nl +:+ "<|assistant|>" +:+ nl))
              (VStr (chosen +:+ "</s>" +:+ nl))
              (VStr (rejected +:+ "</s>" +:+ nl))) as (_ & _ & _ & Hnone).
  split.
  - unfold DPO.format_prompt. rewrite (getitem_None _ "system"); [reflexivity |].
    apply Hnone. other_key.
  - unfold DPO.filter_lambda. rewrite (getitem_None _ "status"); [reflexivity |].
    apply Hnone. other_key.
Qed.

Lemma formatted_row_not_reusable_witness :
  exists out,
    DPO.format_prompt Sample.good_row = Ok out /\
    DPO.format_prompt out = Raise (KeyError "system") /\
    DPO.filter_lambda out = Raise (KeyError "status").
Proof.
  eexists. split; [reflexivity |].
  apply (formatted_row_not_reusable Sample.good_row). reflexivity.
Defined.

(** X5.  The prompt does not keep the system text and the user text apart: an
    example whose user text contains the separator "</s>\n<|user|>\n"
    gets the same prompt as the example with that part of the user text
    moved to the end of the system text. *)
Theorem prompt_boundary_ambiguous (e1 e2 out1 out2 : row) (a b c : string) :
  e1 !! "system" = Some (VStr a) ->
  e1 !! "input" = Some (VStr (b +:+ Edge.turn_separator +:+ c)) ->
  e2 !! "system" = Some (VStr (a +:+ Edge.turn_separator +:+ b)) ->
  e2 !! "input" = Some (VStr c) ->
  DPO.format_prompt e1 = Ok out1 ->
  DPO.format_prompt e2 = Ok out2 ->
  out1 !! "prompt" = out2 !! "prompt" /\ e1 !! "system" <> e2 !! "system".
Proof.
  intros Hs1 Hi1 Hs2 Hi2 Hrun1 Hrun2.
  apply format_prompt_Ok_inv in Hrun1
    as (s1 & i1 & c1 & r1 & Hs1' & Hi1' & _ & _ & ->).
  apply format_prompt_Ok_inv in Hrun2
    as (s2 & i2 & c2 & r2 & Hs2' & Hi2' & _ & _ & ->).
  rewrite Hs1 in Hs1'. rewrite Hi1 in Hi1'. rewrite Hs2 in Hs2'.
  rewrite Hi2 in Hi2'.
  injection Hs1' as <-. injection Hi1' as <-. injection Hs2' as <-.
  injection Hi2' as <-.
  split.
  - match goal with
    | |- {[ "prompt" := ?p1; "chosen" := ?x1; "rejected" := ?y1 ]} !! _ =
         {[ "prompt" := ?p2; "chosen" := ?x2; "rejected" := ?y2 ]} !! _ =>
        destruct (lookup_formatted p1 x1 y1) as (-> & _);
        destruct (lookup_formatted p2 x2 y2) as (-> & _)
    end.
    unfold Edge.turn_separator. now rewrite !append_assoc.
  - rewrite Hs1, Hs2. intros [= H].
    apply (f_equal String.length) in H.
    rewrite !length_append in H. unfold Edge.turn_separator in H.
    simpl in H. lia.
Qed.

Lemma prompt_boundary_ambiguous_witness :
  exists out1 out2,
    DPO.format_prompt Edge.split_early = Ok out1 /\
    DPO.format_prompt Edge.split_late = Ok out2 /\
    out1 !! "prompt" = out2 !! "prompt" /\
    Edge.split_early !! "system" <> Edge.split_late !! "system".
Proof.
  do 2 eexists. split; [reflexivity |]. split; [reflexivity |].
  apply (prompt_boundary_ambiguous Edge.split_early Edge.split_late _ _
           "Be brief." "Hello" "Bye"); reflexivity.
Defined.

(** X6.  The two completions can be read back from the formatted row: examples
    with the same formatted "chosen" (or "rejected") had the same "chosen"
    (or "rejected") field; and for one system text, examples with the same
    prompt had the same user text. *)
Theorem completions_injective (e1 e2 out1 out2 : row) :
  DPO.format_prompt e1 = Ok out1 ->
  DPO.format_prompt e2 = Ok out2 ->
  (out1 !! "chosen" = out2 !! "chosen" -> e1 !! "chosen" = e2 !! "chosen") /\
  (out1 !! "rejected" = out2 !! "rejected" ->
   e1 !! "rejected" = e2 !! "rejected") /\
  (e1 !! "system" = e2 !! "system" ->
   out1 !! "prompt" = out2 !! "prompt" -> e1 !! "input" = e2 !! "input").
Proof.
  intros Hrun1 Hrun2.
  apply format_prompt_Ok_inv in Hrun1
    as (s1 & i1 & c1 & r1 & Hs1 & Hi1 & Hc1 & Hr1 & ->).
  apply format_prompt_Ok_inv in Hrun2
    as (s2 & i2 & c2 & r2 & Hs2 & Hi2 & Hc2 & Hr2 & ->).
  match goal with
  | |- context [{[ "prompt" := ?p1; "chosen" := ?x1; "rejected" := ?y1 ]} !! "chosen" =
                {[ "prompt" := ?p2; "chosen" := ?x2; "rejected" := ?y2 ]} !! "chosen"] =>
      destruct (lookup_formatted p1 x1 y1) as (-> & -> & -> & _);
      destruct (lookup_formatted p2 x2 y2) as (-> & -> & -> & _)
  end.
  rewrite Hs1, Hs2, Hi1, Hi2, Hc1, Hc2, Hr1, Hr2.
  split; [| split].
  - intros [= H]. now apply append_cancel_r in H as ->.
  - intros [= H]. now apply append_cancel_r in H as ->.
  - intros [= ->] [= H].
    repeat apply append_cancel_l in H.
    now apply append_cancel_r in H as ->.
Qed.

Lemma completions_injective_witness :
  exists out1 out2,
    DPO.format_prompt Sample.good_row = Ok out1 /\
    DPO.format_prompt Sample.low_row = Ok out2 /\
    (out1 !! "chosen" = out2 !! "chosen" ->
     Sample.good_row !! "chosen" = Sample.low_row !! "chosen") /\
    (out1 !! "rejected" = out2 !! "rejected" ->
     Sample.good_row !! "rejected" = Sample.low_row !! "rejected") /\
    (Sample.good_row !! "system" = Sample.low_row !! "system" ->
     out1 !! "prompt" = out2 !! "prompt" ->
     Sample.good_row !! "input" = Sample.low_row !! "input").
Proof.
  do 2 eexists. split; [reflexivity |]. split; [reflexivity |].
  apply (completions_injective Sample.good_row Sample.low_row); reflexivity.
Defined.

End EdgeCases.

(** ** The dataset steps as a whole *)

Section DatasetSteps.






Lemma map_rows (function : row -> result row) (remove_columns : list string)
    (rows rows' : list row) :
  Dataset.map function remove_columns rows = Ok rows' ->
  Forall2 (fun r r' => exists out,
    function r = Ok out /\
    r' = out ∪ Dataset.remove_columns_from remove_columns r) rows rows'.
Proof.
  revert rows'. induction rows as [| r rows IH]; intros rows'; cbn [Dataset.map].
  - intros [= <-]. constructor.
  - destruct (function r) as [out|] eqn:Hout; [| discriminate].
    cbn [mbind result_bind].
    destruct (Dataset.map function remove_columns rows) as [rest|];
      [| discriminate].
    cbn [mbind result_bind]. intros [= <-].
    constructor; [now exists out | now apply IH].
Qed.

(** X8.  The instruction-tuning notebook maps without removing columns: every
    row keeps all its columns and gains (or has replaced) the one column
    "text", holding what the chat template made of the row's "messages".
    The call returns a dataset when every row has "messages" that the
    template accepts. *)
Theorem sft_map_adds_text (template_tokenizer : SFT.Tokenizer)
    (rows : list row) :
  (Forall (fun r : row => exists chat text,
     r !! "messages" = Some chat /\
     SFT.apply_chat_template template_tokenizer chat = Ok text) rows ->
   exists rows',
     Dataset.map (SFT.format_prompt template_tokenizer) [] rows = Ok rows') /\
  (forall rows',
     Dataset.map (SFT.format_prompt template_tokenizer) [] rows = Ok rows' ->
     Forall2 (fun r r' : row => exists chat text,
       r !! "messages" = Some chat /\
       SFT.apply_chat_template template_tokenizer chat = Ok text /\
       r' = <[ "text" := text ]> r /\
       r' !! "text" = Some text /\
       forall c, c <> "text" -> r' !! c = r !! c) rows rows').
Proof.
  split.
  - intros Hrows. apply map_total.
    eapply Forall_impl; [exact Hrows |].
    intros r (chat & text & Hchat & Htext).
    exists {[ "text" := text ]}. unfold SFT.format_prompt.
    rewrite (getitem_Some _ _ _ Hchat). cbn [mbind result_bind].
    now rewrite Htext.
  - intros rows' Hmap. apply map_rows in Hmap.
    eapply Forall2_impl; [exact Hmap |].
    intros r r' (out & Hout & ->). unfold SFT.format_prompt, getitem in Hout.
    destruct (r !! "messages") as [chat|] eqn:Hchat; [| discriminate].
    cbn [mbind result_bind] in Hout.
    destruct (SFT.apply_chat_template template_tokenizer chat) as [text|]
      eqn:Htext; [| discriminate].
    cbn [mbind result_bind] in Hout. injection Hout as <-.
    exists chat, text. cbn [Dataset.remove_columns_from foldr].
    rewrite <- insert_union_singleton_l.
    repeat split; try assumption.
    + apply lookup_insert_eq.
    + intros c Hc. now apply lookup_insert_ne.
Qed.

End DatasetSteps.

(** ** The wiring of the calls *)

Section CallWiring.

(** Facts about a given sequence of events, settled by running the
    notebook. *)
Ltac wiring_facts :=
  repeat match goal with
         | |- _ /\ _ => split
         | |- (_ < _)%nat => lia
         | |- Trace.only_at _ _ _ => apply only_atb_sound; vm_compute; reflexivity
         | |- Trace.never _ _ => apply neverb_sound; vm_compute; reflexivity
         | |- _ = _ => first [vm_compute; reflexivity | reflexivity]
         end.

(** X10.  Both notebooks train the quantized base model wrapped with the LoRA
    adapter: the model the trainer is constructed with is the result of
    [get_peft_model] on the result of [prepare_model_for_kbit_training] on
    the model loaded with the 4-bit [BitsAndBytesConfig] object, constructed
    before, as its [quantization_config], and the LoRA
    configuration of [get_peft_model] (rank 64, alpha 32, the seven
    projection layers) is the [peft_config] of the trainer. *)
Theorem notebooks_train_qlora_model :
  Wiring.trains_qlora_model (trace sft_notebook) "SFTTrainer" /\
  Wiring.trains_qlora_model (trace dpo_notebook) "DPOTrainer".
Proof.
  split.
  - exists 8. do 2 eexists. exists 7, 15, 14. eexists. exists 16, 18. eexists.
    wiring_facts.
  - exists 7. do 2 eexists. exists 3, 11, 10. eexists. exists 12, 14. eexists.
    wiring_facts.
Qed.


(** X11.  In both notebooks the objects are configured before they are used: the
    tokenizer, loaded under the name of the base model, has its pad token
    set to "<PAD>" and its padding side to "left" before the trainer gets
    it, and the loaded model has [config.use_cache = False] and
    [config.pretraining_tp = 1] before it is prepared for training; each
    of the four attributes is assigned exactly once. *)
Theorem notebooks_configure_before_use :
  Wiring.settings_before_use (trace sft_notebook) "SFTTrainer" /\
  Wiring.settings_before_use (trace dpo_notebook) "DPOTrainer".
Proof.
  split.
  - eexists. exists 11. eexists. exists 8. eexists. exists 15, 18. eexists.
    exists 12, 13, 9, 10. wiring_facts.
  - eexists. exists 4. eexists. exists 7. eexists. exists 11, 14. eexists.
    exists 5, 6, 8, 9. wiring_facts.
Qed.

(** X9.  The instruction-tuning notebook trains on the column its
    [format_prompt] writes: the one [SFTTrainer] is given the dataset that
    the one [map(format_prompt)] call returned for 3000 shuffled rows of
    the loaded split, with [dataset_text_field="text"]; and every row of a
    dataset mapped through [format_prompt] has a "text" column. *)
Theorem sft_trains_on_text_column :
  Wiring.trains_on_text (trace sft_notebook) /\
  forall template_tokenizer rows rows',
    Dataset.map (SFT.format_prompt template_tokenizer) [] rows = Ok rows' ->
    Forall (fun r' : row => is_Some (r' !! "text")) rows'.
Proof.
  split.
  - exists 1, 2, 3, 4, 5, 18, 19. eexists. wiring_facts.
  - intros tok rows rows' Hmap. apply map_rows in Hmap.
    induction Hmap as [| r r' rows rows' (out & Hout & ->) _ IH];
      constructor; [| assumption].
    unfold SFT.format_prompt in Hout.
    destruct (getitem r "messages") as [chat|]; [| discriminate].
    cbn [mbind result_bind] in Hout.
    destruct (SFT.apply_chat_template tok chat) as [text|]; [| discriminate].
    cbn [mbind result_bind] in Hout. injection Hout as <-.
    exists text. apply lookup_union_Some_l, lookup_singleton_eq.
Qed.

(** X12.  Generation uses the tokenizer of the training run.  The
    instruction-tuning notebook hands the trainer's tokenizer object to the
    pipeline; the preference-tuning notebook saves the trainer's tokenizer
    next to the merged model (what its one [merge_and_unload()] call on the
    trained model returned) and hands the pipeline the tokenizer loaded
    from that directory, which it uses for nothing else. *)
Theorem generation_uses_training_tokenizer :
  Wiring.generates_with_training_tokenizer (trace sft_notebook) /\
  Wiring.generates_with_saved_tokenizer (trace dpo_notebook).
Proof.
  split.
  - exists 11, 18. eexists. exists 23. eexists. wiring_facts.
  - exists 4, 14. do 2 eexists. exists 25, 26, 27, 29. eexists. exists 30.
    do 3 eexists. wiring_facts.
Qed.

End CallWiring.
